(** * BMW Z3 price dashboard (app.py): record store, filters, aggregates, trend

    A shallow embedding of the data pipeline of [app.py].  The script is a
    Streamlit page; what is modelled here is the part that computes:

    - [load_data]            (app.py 21-31)   the record store,
    - [df_filtered]          (app.py 95-112)  the filter block,
    - [key_stats]            (app.py 119-129) the four [st.metric] values,
    - [tendance]             (app.py 156-171) the least-squares trend line,
    - [prix_par_annee]       (app.py 205)     the per-year aggregate,
    - [df_display]           (app.py 246-253) the detailed table.

    A DataFrame is a list of rows in index order.  A boolean mask
    [df[mask]] is [List.filter].  pandas floats that may be NaN are the
    type [pfloat]; finite values are exact rationals, so rounding of
    binary floating point is not part of the model.

    Two computations belong to the libraries and are parameters of the
    model: the conversion of the text of a date cell by [pd.to_datetime]
    ([Conversion]) and the float64 least-squares solver behind
    [np.polyfit] ([Solver]).  What is stated about [load_data] and
    [tendance] holds for every conversion and every solver. *)

From Stdlib Require Import List ZArith QArith Bool Lia String Ascii Sorted Permutation.
From Stdlib Require Import Qfield.
Import ListNotations.
Local Open Scope Z_scope.

Set Implicit Arguments.

(** [length] is the length of a list throughout. *)
Local Abbreviation length := Datatypes.length.

(* ================================================================= *)
(** ** Calendar dates *)

(** A [datetime.date] / a midnight [Timestamp]: the format [%d/%m/%Y]
    carries no time of day. *)
Record date : Type := mkdate { year : Z; month : Z; day : Z }.

(** Python compares dates as the tuples (year, month, day). *)
Definition date_compare (a b : date) : comparison :=
  match year a ?= year b with
  | Eq => match month a ?= month b with
          | Eq => day a ?= day b
          | c => c
          end
  | c => c
  end.

Definition date_leb (a b : date) : bool :=
  match date_compare a b with Gt => false | _ => true end.

Definition date_le (a b : date) : Prop :=
  year a < year b \/
  (year a = year b /\ (month a < month b \/ (month a = month b /\ day a <= day b))).

Definition date_lt (a b : date) : Prop :=
  year a < year b \/
  (year a = year b /\ (month a < month b \/ (month a = month b /\ day a < day b))).

Definition is_leap (y : Z) : bool :=
  (y mod 4 =? 0) && (negb (y mod 100 =? 0) || (y mod 400 =? 0)).

Definition days_in_month (y m : Z) : Z :=
  match m with
  | 1 => 31 | 2 => if is_leap y then 29 else 28 | 3 => 31 | 4 => 30
  | 5 => 31 | 6 => 30 | 7 => 31 | 8 => 31 | 9 => 30 | 10 => 31
  | 11 => 30 | 12 => 31
  | _ => 0
  end.

(** Days in the months before month [m] (datetime's [_days_before_month]). *)
Definition days_before_month (y m : Z) : Z :=
  fold_right Z.add 0 (map (days_in_month y) (map Z.of_nat (seq 1 (Z.to_nat (m - 1))))).

(** Days before January 1st of year [y] (datetime's [_days_before_year]). *)
Definition days_before_year (y : Z) : Z :=
  let p := y - 1 in p * 365 + p / 4 - p / 100 + p / 400.

(** Proleptic Gregorian ordinal; the difference of two midnight
    Timestamps, read with [.dt.days], is the difference of ordinals. *)
Definition toordinal (d : date) : Z :=
  days_before_year (year d) + days_before_month (year d) (month d) + day d.

Definition valid_date (d : date) : bool :=
  (1 <=? year d) && (year d <=? 9999) &&
  (1 <=? month d) && (month d <=? 12) &&
  (1 <=? day d) && (day d <=? days_in_month (year d) (month d)).

(* ----------------------------------------------------------------- *)
(** *** Text form [DD/MM/YYYY] *)

Definition digit_val (c : ascii) : option Z :=
  let n := Z.of_nat (nat_of_ascii c) in
  if (48 <=? n) && (n <=? 57) then Some (n - 48) else None.

Definition digit_char (n : Z) : ascii := ascii_of_nat (Z.to_nat (48 + n mod 10)).

(** [strftime('%d/%m/%Y')]: zero-padded day and month, four-digit year. *)
Definition strftime_dmY (d : date) : string :=
  String (digit_char (day d / 10)) (String (digit_char (day d))
  (String "/" (String (digit_char (month d / 10)) (String (digit_char (month d))
  (String "/" (String (digit_char (year d / 1000)) (String (digit_char (year d / 100))
  (String (digit_char (year d / 10)) (String (digit_char (year d)) EmptyString))))))))).

(** Split at the first ["/"]. *)
Fixpoint split_slash (s : string) : option (string * string) :=
  match s with
  | EmptyString => None
  | String c r =>
      if Ascii.eqb c "/" then Some (EmptyString, r)
      else match split_slash r with
           | Some (a, b) => Some (String c a, b)
           | None => None
           end
  end.

(** The directive [%d]: [3[0-1]|[1-2]\d|0[1-9]|[1-9]| [1-9]]. *)
Definition parse_day (s : string) : option Z :=
  match s with
  | String a EmptyString =>
      match digit_val a with Some v => if 1 <=? v then Some v else None | None => None end
  | String a (String b EmptyString) =>
      match digit_val b with
      | None => None
      | Some w =>
          if Ascii.eqb a " " then (if 1 <=? w then Some w else None)
          else match digit_val a with
               | Some v => let n := 10 * v + w in
                           if (1 <=? n) && (n <=? 31) then Some n else None
               | None => None
               end
      end
  | _ => None
  end.

(** The directive [%m]: [1[0-2]|0[1-9]|[1-9]]. *)
Definition parse_month (s : string) : option Z :=
  match s with
  | String a EmptyString =>
      match digit_val a with Some v => if 1 <=? v then Some v else None | None => None end
  | String a (String b EmptyString) =>
      match digit_val a, digit_val b with
      | Some v, Some w => let n := 10 * v + w in
                          if (1 <=? n) && (n <=? 12) then Some n else None
      | _, _ => None
      end
  | _ => None
  end.

(** The directive [%Y]: exactly four digits. *)
Definition parse_year (s : string) : option Z :=
  match s with
  | String a (String b (String c (String d EmptyString))) =>
      match digit_val a, digit_val b, digit_val c, digit_val d with
      | Some x, Some y, Some z, Some w => Some (1000 * x + 100 * y + 10 * z + w)
      | _, _, _, _ => None
      end
  | _ => None
  end.

(** Reading a date from plain [DD/MM/YYYY] text: the whole text has to
    match the directives, written with the digits 0 to 9, and the triple
    has to be a date of the calendar.  It reads back what [strftime_dmY]
    writes, the text of the table.  It is not the loader's conversion,
    which is a parameter ([Conversion], below). *)
Definition strptime_dmY (s : string) : option date :=
  match split_slash s with
  | None => None
  | Some (ds, r) =>
      match split_slash r with
      | None => None
      | Some (ms, ys) =>
          match parse_day ds, parse_month ms, parse_year ys with
          | Some d, Some m, Some y =>
              let dt := mkdate y m d in
              if valid_date dt then Some dt else None
          | _, _, _ => None
          end
      end
  end.

(* ================================================================= *)
(** ** Rows and outcomes *)

(** A price cell as [read_csv] hands it over: empty (NaN), a number, or
    text that is not a number. *)
Inductive pcell : Type :=
  | PNaN
  | PNum (v : Z)
  | PStr (s : string).

(** One row of the CSV: titre, date_publication, annee, kilometrage_km,
    prix_eur, ville, type_vendeur, url.  [D] is the type of the date
    column and [P] of the price column at the stage considered. *)
Record Row (D P : Type) : Type := mkRow {
  titre : string;
  date_publication : D;
  annee : Z;
  kilometrage_km : Z;
  prix_eur : P;
  ville : string;
  type_vendeur : string;
  url : string
}.

(** Straight out of [read_csv]: dates are text or missing. *)
Definition RawRow : Type := Row (option string) pcell.
(** After [to_datetime]: a date or NaT. *)
Definition DatedRow : Type := Row (option date) pcell.
(** A retained listing: date and price present. *)
Definition Listing : Type := Row date Z.

Inductive exn : Type :=
  | FileNotFoundError
  | ValueError.

Inductive result (A : Type) : Type :=
  | Ok (a : A)
  | Raise (e : exn).
Arguments Ok {A} a.
Arguments Raise {A} e.

Definition bind {A B : Type} (r : result A) (k : A -> result B) : result B :=
  match r with
  | Ok a => k a
  | Raise e => Raise e
  end.

Notation "x <- r ;; k" := (bind r (fun x => k))
  (at level 61, r at next level, right associativity).

Fixpoint mapM {A B : Type} (f : A -> result B) (l : list A) : result (list B) :=
  match l with
  | [] => Ok []
  | a :: t => b <- f a ;; bs <- mapM f t ;; Ok (b :: bs)
  end.

(* ================================================================= *)
(** ** Record store: [load_data] *)

(** The file system as far as [read_csv('data.csv')] sees it: the
    parsed table, or no file. *)
Definition Source : Type := option (list RawRow).

Definition read_csv (src : Source) : result (list RawRow) :=
  match src with
  | Some rows => Ok rows
  | None => Raise FileNotFoundError
  end.

Definition set_date {D D' P : Type} (r : Row D P) (d : D') : Row D' P :=
  mkRow (titre r) d (annee r) (kilometrage_km r) (prix_eur r)
        (ville r) (type_vendeur r) (url r).

(** What [pd.to_datetime(col, format='%d/%m/%Y')] makes of the text of
    one cell: a date, NaT (pandas reads a few words as NaT), or a
    refusal.  Which text gets which answer is pandas' own doing and is a
    parameter of the model. *)
Inductive cell_date : Type :=
  | Parsed (d : date)
  | NotATime
  | Rejected.

Definition Conversion : Type := string -> cell_date.

(** [pd.to_datetime(col, format='%d/%m/%Y')] with the default
    [errors='raise']: a missing cell becomes NaT, a cell that is refused
    raises. *)
Definition to_datetime_cell (conv : Conversion) (c : option string)
  : result (option date) :=
  match c with
  | None => Ok None
  | Some s => match conv s with
              | Parsed d => Ok (Some d)
              | NotATime => Ok None
              | Rejected => Raise ValueError
              end
  end.

Definition to_datetime (conv : Conversion) (df : list RawRow) : result (list DatedRow) :=
  mapM (fun r => d <- to_datetime_cell conv (date_publication r) ;; Ok (set_date r d)) df.

Definition pcell_notna (c : pcell) : bool :=
  match c with PNaN => false | _ => true end.

Definition date_notna (d : option date) : bool :=
  match d with None => false | Some _ => true end.

(** [df.dropna(subset=['prix_eur', 'date_publication'])]. *)
Definition dropna (df : list DatedRow) : list DatedRow :=
  filter (fun r => pcell_notna (prix_eur r) && date_notna (date_publication r)) df.

Definition load_data (conv : Conversion) (src : Source) : result (list DatedRow) :=
  df <- read_csv src ;;
  df <- to_datetime conv df ;;
  Ok (dropna df).

(* ================================================================= *)
(** ** Filter block: [df_filtered] *)

(** The widget values.  [st.date_input] with a pair as value returns a
    tuple of up to two dates (one while the user is picking); the
    sliders return pairs. *)
Record Criteria : Type := mkCriteria {
  date_range : list date;
  annee_range : Z * Z;
  km_range : Z * Z;
  prix_range : Z * Z;
  type_vendeur_sel : list string
}.

(** [Series.isin]. *)
Definition isin (s : string) (l : list string) : bool :=
  existsb (String.eqb s) l.

Definition date_mask (lo hi : date) (l : Listing) : bool :=
  date_leb lo (date_publication l) && date_leb (date_publication l) hi.

Definition other_mask (c : Criteria) (l : Listing) : bool :=
  (fst (annee_range c) <=? annee l) &&
  (annee l <=? snd (annee_range c)) &&
  (fst (km_range c) <=? kilometrage_km l) &&
  (kilometrage_km l <=? snd (km_range c)) &&
  (fst (prix_range c) <=? prix_eur l) &&
  (prix_eur l <=? snd (prix_range c)) &&
  isin (type_vendeur l) (type_vendeur_sel c).

Definition df_filtered (df : list Listing) (c : Criteria) : list Listing :=
  let df1 :=
    match date_range c with
    | [lo; hi] => filter (date_mask lo hi) df
    | _ => df
    end in
  filter (other_mask c) df1.

(* ================================================================= *)
(** ** Key statistics: the four [st.metric] values *)

(** A pandas float: NaN or a finite number. *)
Inductive pfloat : Type :=
  | NaN
  | Fin (q : Q).

Definition sumZ (xs : list Z) : Z := fold_right Z.add 0 xs.

(** [Series.mean()]: NaN on an empty series. *)
Definition mean (xs : list Z) : pfloat :=
  match xs with
  | [] => NaN
  | _ :: _ => Fin (Qmake (sumZ xs) (Pos.of_nat (length xs)))
  end.

Fixpoint insert_asc (x : Z) (l : list Z) : list Z :=
  match l with
  | [] => [x]
  | h :: t => if x <=? h then x :: l else h :: insert_asc x t
  end.

Definition sort_asc (xs : list Z) : list Z := fold_right insert_asc [] xs.

(** [Series.median()]: NaN on an empty series, the middle value, or the
    mean of the two middle values. *)
Definition median (xs : list Z) : pfloat :=
  match xs with
  | [] => NaN
  | _ :: _ =>
      let s := sort_asc xs in
      let n := length xs in
      if Nat.even n
      then Fin (Qmake (nth (n / 2 - 1) s 0 + nth (n / 2) s 0) 2)
      else Fin (inject_Z (nth (n / 2) s 0))
  end.

Record Summary : Type := mkSummary {
  nombre : nat;
  prix_moyen : pfloat;
  prix_median : pfloat;
  km_moyen : pfloat
}.

(** The block of four metrics.  Nothing in it raises: [len], [mean],
    [median] and the format [:,.0f] are defined on an empty frame and on
    NaN (which prints as [nan]). *)
Definition key_stats (view : list Listing) : result Summary :=
  Ok (mkSummary (length view)
                (mean (map (@prix_eur _ _) view))
                (median (map (@prix_eur _ _) view))
                (mean (map (@kilometrage_km _ _) view))).

(* ================================================================= *)
(** ** Trend line *)

Record LinearModel : Type := mkLinearModel { slope : Q; intercept : Q }.

(** [p = np.poly1d(z)]: [p(x) = z[0] * x + z[1]], in exact arithmetic. *)
Definition predict (m : LinearModel) (x : Q) : Q :=
  (slope m * x + intercept m)%Q.

(** [(date_publication - date_publication.min()).dt.days]. *)
Definition date_num (view : list Listing) : list Z :=
  match map (fun l => toordinal (date_publication l)) view with
  | [] => []
  | o :: os =>
      let t0 := fold_right Z.min o os in
      map (fun t => t - t0) (o :: os)
  end.

Definition sumQ (l : list Q) : Q := fold_right Qplus 0%Q l.

(** The squared norm of the column of abscissas. *)
Definition s_xx (pts : list (Q * Q)) : Q := sumQ (map (fun p => fst p * fst p)%Q pts).

(** The float64 solver that [np.polyfit] calls on data it can solve: it
    returns the two coefficients as doubles, and every double is a
    rational.  Its digits are numpy's own doing and it is a parameter of
    the model. *)
Definition Solver : Type := list (Q * Q) -> LinearModel.

(** [np.polyfit(x, y, 1)].  numpy divides each column of the design
    matrix by its norm before it solves.  When every abscissa is 0 the
    norm of that column is 0, the matrix is no longer finite and the
    solve raises ([LinAlgError]): [None].  Otherwise the result is what
    the solver returns. *)
Definition polyfit1 (lstsq : Solver) (pts : list (Q * Q)) : option LinearModel :=
  if Qeq_bool (s_xx pts) 0 then None else Some (lstsq pts).

(** The points handed to [polyfit]: day offset against price. *)
Definition trend_points (view : list Listing) : list (Q * Q) :=
  combine (map inject_Z (date_num view))
          (map (fun l => inject_Z (prix_eur l)) view).

Inductive Tendance : Type :=
  | Skipped                      (* guard false: no trace added *)
  | Fitted (m : LinearModel)     (* the trace of [m] is added *)
  | Breakdown.                   (* [polyfit] raised: the page ends on the
                                    error message of the last handler *)

Definition fit_outcome (lstsq : Solver) (pts : list (Q * Q)) : Tendance :=
  match polyfit1 lstsq pts with
  | Some m => Fitted m
  | None => Breakdown
  end.

(** [if len(df_filtered) > 1: ...]. *)
Definition tendance (lstsq : Solver) (view : list Listing) : Tendance :=
  if (1 <? length view)%nat then fit_outcome lstsq (trend_points view) else Skipped.

(* ================================================================= *)
(** ** Per-year aggregate: [groupby('annee')['prix_eur'].agg(['mean','count'])] *)

Record YearStat : Type := mkYearStat {
  ys_annee : Z;
  ys_mean : pfloat;
  ys_count : nat
}.

Fixpoint insert_key (k : Z) (ks : list Z) : list Z :=
  match ks with
  | [] => [k]
  | h :: t =>
      if k <? h then k :: ks
      else if k =? h then ks
      else h :: insert_key k t
  end.

(** The group keys: the distinct values, sorted ([sort=True]). *)
Definition group_keys (xs : list Z) : list Z := fold_right insert_key [] xs.

Definition year_group (view : list Listing) (k : Z) : list Listing :=
  filter (fun l => annee l =? k) view.

Definition prix_par_annee (view : list Listing) : list YearStat :=
  map (fun k =>
         let g := year_group view k in
         mkYearStat k (mean (map (@prix_eur _ _) g)) (length g))
      (group_keys (map (@annee _ _) view)).

(* ================================================================= *)
(** ** Detailed table: [df_display] *)

Definition DisplayRow : Type := Row string Z.

Fixpoint insert_desc {A : Type} (key : A -> string) (x : A) (l : list A) : list A :=
  match l with
  | [] => [x]
  | h :: t =>
      if String.leb (key h) (key x) then x :: l else h :: insert_desc key x t
  end.

(** [sort_values(col, ascending=False)] on a text column: decreasing in
    the order of Python strings (code point by code point).  Rows with
    equal keys keep their order here; pandas' default sort leaves their
    order open, and nothing below depends on it. *)
Definition sort_values_desc {A : Type} (key : A -> string) (l : list A) : list A :=
  fold_right (insert_desc key) [] l.

(** [a] may stand above [b]: the key of [a] is not below that of [b]
    in the order of strings. *)
Definition text_geb {A : Type} (key : A -> string) (a b : A) : Prop :=
  String.leb (key b) (key a) = true.

(** Lines 252-253: the date column is first replaced by its text
    [DD/MM/YYYY], then the frame is sorted on that column. *)
Definition df_display (view : list Listing) : list DisplayRow :=
  sort_values_desc (@date_publication _ _)
    (map (fun l => set_date l (strftime_dmY (date_publication l))) view).

(** The table is in reverse-chronological order: of two rows shown, the
    upper one is never older than the lower one.  The date of a row of
    the table is read back from its text. *)
Definition reverse_chronological (t : list DisplayRow) : Prop :=
  forall i j ri rj di dj,
    (i < j)%nat ->
    nth_error t i = Some ri -> nth_error t j = Some rj ->
    strptime_dmY (date_publication ri) = Some di ->
    strptime_dmY (date_publication rj) = Some dj ->
    date_le dj di.

(* ================================================================= *)
(** ** Vocabulary for the statements on [df_filtered] *)

Inductive subseq {A : Type} : list A -> list A -> Prop :=
  | subseq_nil : subseq [] []
  | subseq_skip : forall x l1 l2, subseq l1 l2 -> subseq l1 (x :: l2)
  | subseq_keep : forall x l1 l2, subseq l1 l2 -> subseq (x :: l1) (x :: l2).

(** The criteria that name an inverted range. *)
Definition inverted (c : Criteria) : Prop :=
  (exists lo hi, date_range c = [lo; hi] /\ date_lt hi lo) \/
  snd (annee_range c) < fst (annee_range c) \/
  snd (km_range c) < fst (km_range c) \/
  snd (prix_range c) < fst (prix_range c).

(** The five tests of the filter, as propositions. *)
Definition in_range (r : Z * Z) (v : Z) : Prop := fst r <= v /\ v <= snd r.

Definition passes (lo hi : date) (c : Criteria) (l : Listing) : Prop :=
  (date_le lo (date_publication l) /\ date_le (date_publication l) hi) /\
  in_range (annee_range c) (annee l) /\
  in_range (km_range c) (kilometrage_km l) /\
  in_range (prix_range c) (prix_eur l) /\
  In (type_vendeur l) (type_vendeur_sel c).

(* ================================================================= *)
(** ** Vocabulary for the statements on [load_data] *)

(** The date cell holds a text that the conversion refuses. *)
Definition unparsable_date (conv : Conversion) (r : RawRow) : Prop :=
  exists s, date_publication r = Some s /\ conv s = Rejected.

Definition parse_cell (conv : Conversion) (c : option string) : option date :=
  match c with
  | Some s => match conv s with Parsed d => Some d | _ => None end
  | None => None
  end.

(** The row with its date cell converted. *)
Definition dated (conv : Conversion) (r : RawRow) : DatedRow :=
  set_date r (parse_cell conv (date_publication r)).

(** The price cell is filled and the date cell converts to a date. *)
Definition complete (conv : Conversion) (r : RawRow) : bool :=
  pcell_notna (prix_eur r) && date_notna (parse_cell conv (date_publication r)).

Definition price_missing (r : RawRow) : bool :=
  match prix_eur r with PNaN => true | _ => false end.

(** The date cell is filled and converts to a date. *)
Definition date_well_formed (conv : Conversion) (r : RawRow) : Prop :=
  exists s d, date_publication r = Some s /\ conv s = Parsed d.

(* ================================================================= *)
(** ** Sample data *)

(** The conversion used in the examples: plain [DD/MM/YYYY] text is read
    as its date and any other text is refused.  On the texts of the
    examples this is what pandas does; pandas converts some texts that
    this one refuses, and the statements on [load_data] do not depend
    on it. *)
Definition dmY_text : Conversion :=
  fun s => match strptime_dmY s with
           | Some d => Parsed d
           | None => Rejected
           end.

Definition s_n (pts : list (Q * Q)) : Q := inject_Z (Z.of_nat (length pts)).
Definition s_x (pts : list (Q * Q)) : Q := sumQ (map fst pts).
Definition s_y (pts : list (Q * Q)) : Q := sumQ (map snd pts).
Definition s_xy (pts : list (Q * Q)) : Q := sumQ (map (fun p => fst p * snd p)%Q pts).

(** The solver used in the examples: the least-squares line in exact
    arithmetic, which the float64 solver approximates to the last bits
    of a double.  The statements on [tendance] do not depend on it. *)
Definition exact_line : Solver :=
  fun pts =>
    let d := (s_n pts * s_xx pts - s_x pts * s_x pts)%Q in
    mkLinearModel ((s_n pts * s_xy pts - s_x pts * s_y pts) / d)%Q
                  ((s_y pts * s_xx pts - s_x pts * s_xy pts) / d)%Q.

Definition raw (d : option string) (p : pcell) : RawRow :=
  mkRow "BMW Z3 roadster"%string d 1999 120000 p "Lyon"%string
        "particulier"%string "https://example.org/z3"%string.

Definition listing (d : date) (a km p : Z) (v : string) : Listing :=
  mkRow "BMW Z3 roadster"%string d a km p "Lyon"%string v
        "https://example.org/z3"%string.

(** Five complete rows and two without a price. *)
Definition seven_rows : list RawRow :=
  [ raw (Some "03/01/2024"%string) (PNum 9500);
    raw (Some "15/01/2024"%string) PNaN;
    raw (Some "20/01/2024"%string) (PNum 12000);
    raw (Some "02/02/2024"%string) (PNum 8900);
    raw (Some "10/02/2024"%string) PNaN;
    raw (Some "28/02/2024"%string) (PNum 15500);
    raw (Some "05/03/2024"%string) (PNum 11000) ].

(** Two listings shown in the table example. *)
Definition sample_view : list Listing :=
  [ listing (mkdate 2021 2 1) 2001 95000 11000 "particulier"%string;
    listing (mkdate 2020 1 31) 1999 120000 9500 "professionnel"%string ].

(** Day 0 at 1000 euros and day 10 at 2000 euros. *)
Definition two_points : list Listing :=
  [ listing (mkdate 2024 1 1) 1999 100000 1000 "particulier"%string;
    listing (mkdate 2024 1 11) 1999 100000 2000 "particulier"%string ].

(** Two listings published on the same day. *)
Definition same_day_pair : list Listing :=
  [ listing (mkdate 2024 1 1) 1999 100000 1000 "particulier"%string;
    listing (mkdate 2024 1 1) 2001 80000 2000 "professionnel"%string ].

Definition all_sellers : list string := ["particulier"%string; "professionnel"%string].

Definition wide_criteria : Criteria :=
  mkCriteria [mkdate 2024 1 1; mkdate 2024 12 31]
             (1995, 2003) (0, 300000) (0, 50000) all_sellers.

(** The same with the two dates swapped. *)
Definition inverted_dates : Criteria :=
  mkCriteria [mkdate 2024 12 31; mkdate 2024 1 1]
             (1995, 2003) (0, 300000) (0, 50000) all_sellers.

(** One more day in a leap year. *)
Definition leap_day (y : Z) : Z := if is_leap y then 1 else 0.

(* ================================================================= *)
(** ** The two masks as one *)

(** The mask that the two indexing steps of the filter block amount to. *)
Definition row_mask (c : Criteria) (l : Listing) : bool :=
  match date_range c with
  | [lo; hi] => date_mask lo hi l
  | _ => true
  end && other_mask c l.

(** [c] selects within [c']: both hold a pair of dates, and every range
    and the seller selection of [c] lie inside those of [c']. *)
Definition narrower (c c' : Criteria) : Prop :=
  (exists lo hi lo' hi',
     date_range c = [lo; hi] /\ date_range c' = [lo'; hi'] /\
     date_le lo' lo /\ date_le hi hi') /\
  (fst (annee_range c') <= fst (annee_range c) /\
   snd (annee_range c) <= snd (annee_range c')) /\
  (fst (km_range c') <= fst (km_range c) /\
   snd (km_range c) <= snd (km_range c')) /\
  (fst (prix_range c') <= fst (prix_range c) /\
   snd (prix_range c) <= snd (prix_range c')) /\
  incl (type_vendeur_sel c) (type_vendeur_sel c').

(* ================================================================= *)
(** ** Time chart: rows in date order, and the trend trace (app.py 136-171) *)

Fixpoint insert_by {A : Type} (key : A -> Z) (x : A) (l : list A) : list A :=
  match l with
  | [] => [x]
  | h :: t => if key x <=? key h then x :: l else h :: insert_by key x t
  end.

(** [sort_values(col)] on a Timestamp column, increasing.  Rows with
    equal keys keep their order here; pandas leaves it open. *)
Definition sort_values_asc {A : Type} (key : A -> Z) (l : list A) : list A :=
  fold_right (insert_by key) [] l.

(** [df_filtered.sort_values('date_publication')]. *)
Definition chart_rows (view : list Listing) : list Listing :=
  sort_values_asc (fun l => toordinal (date_publication l)) view.

(** The trace added to the chart: for the rows in date order, the date
    and [p(date_num)].  The frame carries the column [date_num] since
    line 159, so each row is sorted along with its offset. *)
Definition trend_trace (lstsq : Solver) (view : list Listing)
  : option (list (date * Q)) :=
  match tendance lstsq view with
  | Fitted m =>
      Some (map (fun r => (date_publication (fst r), predict m (inject_Z (snd r))))
                (sort_values_asc (fun r => toordinal (date_publication (fst r)))
                                 (combine view (date_num view))))
  | _ => None
  end.

(* ================================================================= *)
(** ** Vocabulary for the statements on the aggregates *)

(** The total behind one bar of the per-year chart: mean times count. *)
Definition ys_total (e : YearStat) : Q :=
  match ys_mean e with
  | Fin q => (q * inject_Z (Z.of_nat (ys_count e)))%Q
  | NaN => 0%Q
  end.

(** A number between two integer bounds; NaN is not. *)
Definition pfloat_between (lo hi : Z) (x : pfloat) : Prop :=
  match x with
  | Fin q => (inject_Z lo <= q /\ q <= inject_Z hi)%Q
  | NaN => False
  end.

(* ================================================================= *)
(** ** Vocabulary for the statements on the table *)

(** The row of the table made from a listing: the date as text. *)
Definition display_row (l : Listing) : DisplayRow :=
  set_date l (strftime_dmY (date_publication l)).

(** The ordinal of the date a row of the table shows (0 when the text
    is not a date). *)
Definition shown_ordinal (r : DisplayRow) : Z :=
  match strptime_dmY (date_publication r) with
  | Some d => toordinal d
  | None => 0
  end.

(* ================================================================= *)
(** * Properties *)

(* ================================================================= *)
(** ** Dates *)

Lemma date_leb_le (a b : date) : date_leb a b = true <-> date_le a b.
Proof.
  unfold date_leb, date_compare, date_le.
  destruct (Z.compare_spec (year a) (year b));
    destruct (Z.compare_spec (month a) (month b));
    destruct (Z.compare_spec (day a) (day b));
    split; intros; try discriminate; try reflexivity; lia.
Qed.

Lemma date_lt_not_le (a b : date) : date_lt a b -> ~ date_le b a.
Proof. unfold date_lt, date_le. lia. Qed.

Lemma date_le_trans (a b c : date) : date_le a b -> date_le b c -> date_le a c.
Proof. unfold date_le. lia. Qed.

(* ================================================================= *)
(** ** Generic facts on masks and subsequences *)

Section Masks.
Variable A : Type.
Implicit Types (f g : A -> bool) (l : list A).

Lemma filter_none f l : (forall x, In x l -> f x = false) -> filter f l = [].
Proof.
  induction l as [|a t IH]; intros H; simpl; [reflexivity|].
  rewrite (H a (or_introl eq_refl)). apply IH.
  intros x Hx. apply H. now right.
Qed.

Lemma filter_all f l : (forall x, In x l -> f x = true) -> filter f l = l.
Proof.
  induction l as [|a t IH]; intros H; simpl; [reflexivity|].
  rewrite (H a (or_introl eq_refl)). f_equal. apply IH.
  intros x Hx. apply H. now right.
Qed.

Lemma subseq_refl l : subseq l l.
Proof. induction l; constructor; assumption. Qed.

Lemma subseq_filter f l : subseq (filter f l) l.
Proof.
  induction l as [|a t IH]; simpl; [constructor|].
  destruct (f a); constructor; exact IH.
Qed.

Lemma subseq_trans l1 l2 l3 : subseq l1 l2 -> subseq l2 l3 -> subseq l1 l3.
Proof.
  intros H12 H23. revert l1 H12.
  induction H23 as [|x m2 m3 H IH|x m2 m3 H IH]; intros l1 H12.
  - exact H12.
  - constructor. apply IH. exact H12.
  - inversion H12; subst.
    + constructor. apply IH. assumption.
    + apply subseq_keep. apply IH. assumption.
Qed.

Lemma subseq_length l1 l2 : subseq l1 l2 -> (length l1 <= length l2)%nat.
Proof. induction 1; simpl; lia. Qed.

Lemma subseq_In l1 l2 x : subseq l1 l2 -> In x l1 -> In x l2.
Proof.
  induction 1 as [|y m1 m2 H IH|y m1 m2 H IH]; simpl; intros Hx.
  - exact Hx.
  - right. apply IH. exact Hx.
  - destruct Hx as [->|Hx]; [now left | right; apply IH; exact Hx].
Qed.
End Masks.

(* ================================================================= *)
(** ** Filter block *)

Lemma isin_In (s : string) (l : list string) : isin s l = true <-> In s l.
Proof.
  unfold isin. rewrite existsb_exists. split.
  - intros [x [Hx He]]. apply String.eqb_eq in He. now subst.
  - intros H. exists s. split; [exact H | apply String.eqb_refl].
Qed.

Lemma date_mask_spec (lo hi : date) (l : Listing) :
  date_mask lo hi l = true <->
  date_le lo (date_publication l) /\ date_le (date_publication l) hi.
Proof. unfold date_mask. now rewrite andb_true_iff, !date_leb_le. Qed.

Lemma other_mask_spec (c : Criteria) (l : Listing) :
  other_mask c l = true <->
  in_range (annee_range c) (annee l) /\
  in_range (km_range c) (kilometrage_km l) /\
  in_range (prix_range c) (prix_eur l) /\
  In (type_vendeur l) (type_vendeur_sel c).
Proof.
  unfold other_mask, in_range.
  rewrite !andb_true_iff, !Z.leb_le, isin_In. tauto.
Qed.

(** With a complete date range the two masks compose. *)
Lemma df_filtered_pair (df : list Listing) (c : Criteria) (lo hi : date) :
  date_range c = [lo; hi] ->
  df_filtered df c = filter (other_mask c) (filter (date_mask lo hi) df).
Proof. intros H. unfold df_filtered. now rewrite H. Qed.

(** Whatever the shape of [date_range], the second mask is applied. *)
Lemma df_filtered_other (df : list Listing) (c : Criteria) (l : Listing) :
  In l (df_filtered df c) -> other_mask c l = true.
Proof. unfold df_filtered. intros H. apply filter_In in H. tauto. Qed.

Lemma df_filtered_date (df : list Listing) (c : Criteria) (lo hi : date) (l : Listing) :
  date_range c = [lo; hi] -> In l (df_filtered df c) -> date_mask lo hi l = true.
Proof.
  intros Hr H. rewrite (df_filtered_pair df c Hr) in H.
  apply filter_In in H. destruct H as [H _]. apply filter_In in H. tauto.
Qed.

(** While the date widget holds fewer than two dates, the test on the
    date is not applied. *)
Lemma df_filtered_partial_range (df : list Listing) (c : Criteria) :
  length (date_range c) <> 2%nat -> df_filtered df c = filter (other_mask c) df.
Proof.
  unfold df_filtered. intros H.
  destruct (date_range c) as [|lo [|hi [|x r]]]; try reflexivity.
  now contradiction H.
Qed.

(** C5.  With a date range of two dates, a listing is in the filtered
    view exactly when it is in the input and passes all five tests: the
    publication date between the two dates (bounds included, compared
    as calendar dates), the model year, the mileage and the price each
    within its range (bounds included), and the seller type among the
    selected ones. *)
Theorem df_filtered_iff (df : list Listing) (c : Criteria) (lo hi : date) (l : Listing) :
  date_range c = [lo; hi] ->
  (In l (df_filtered df c) <-> In l df /\ passes lo hi c l).
Proof.
  intros Hr. rewrite (df_filtered_pair df c Hr). unfold passes.
  rewrite !filter_In, other_mask_spec, date_mask_spec. tauto.
Qed.

(** C8.  When one of the ranges is inverted (its lower bound above its
    upper bound; for the dates, a pair whose first date is after the
    second), the filtered view is empty, whatever the listings: a value
    is returned, nothing is rejected. *)
Theorem inverted_range_empty (df : list Listing) (c : Criteria) :
  inverted c -> df_filtered df c = [] /\ length (df_filtered df c) = 0%nat.
Proof.
  intros H.
  assert (E : df_filtered df c = []).
  { destruct H as [[lo [hi [Hr Hlt]]] | H].
    - rewrite (df_filtered_pair df c Hr).
      rewrite (@filter_none _ (date_mask lo hi) df); [reflexivity|].
      intros x _. destruct (date_mask lo hi x) eqn:E; [|reflexivity].
      apply date_mask_spec in E. destruct E as [E1 E2].
      exfalso. apply (date_lt_not_le Hlt). eapply date_le_trans; eassumption.
    - unfold df_filtered. apply filter_none. intros x _.
      destruct (other_mask c x) eqn:E; [|reflexivity].
      apply other_mask_spec in E. unfold in_range in E. lia. }
  now rewrite E.
Qed.

(** C9.  The filtered view is a subsequence of the input: its rows are
    rows of the input, in their original relative order, and there are
    at most as many of them. *)
Theorem df_filtered_subseq (df : list Listing) (c : Criteria) :
  subseq (df_filtered df c) df /\
  (forall l, In l (df_filtered df c) -> In l df) /\
  (length (df_filtered df c) <= length df)%nat.
Proof.
  assert (S : subseq (df_filtered df c) df).
  { unfold df_filtered.
    eapply subseq_trans; [apply subseq_filter|].
    destruct (date_range c) as [|lo [|hi [|x r]]];
      try apply subseq_refl. apply subseq_filter. }
  split; [exact S|]. split.
  - intros l. apply subseq_In. exact S.
  - apply subseq_length. exact S.
Qed.

(** C10.  Filtering a filtered view again with the same criteria
    changes nothing. *)
Theorem df_filtered_idempotent (df : list Listing) (c : Criteria) :
  df_filtered (df_filtered df c) c = df_filtered df c.
Proof.
  set (v := df_filtered df c).
  assert (Ho : forall l, In l v -> other_mask c l = true)
    by (intros l; apply df_filtered_other).
  unfold df_filtered at 1.
  destruct (date_range c) as [|lo [|hi [|x r]]] eqn:Hr;
    try (apply filter_all; exact Ho).
  rewrite (@filter_all _ (date_mask lo hi) v).
  - apply filter_all; exact Ho.
  - intros l Hl. eapply df_filtered_date; eassumption.
Qed.

(* ================================================================= *)
(** ** Per-year aggregate *)

Lemma insert_key_In (k x : Z) (ks : list Z) :
  In x (insert_key k ks) <-> x = k \/ In x ks.
Proof.
  induction ks as [|h t IH]; simpl.
  - intuition.
  - destruct (Z.ltb_spec k h); [simpl; intuition|].
    destruct (Z.eqb_spec k h); simpl; [subst; intuition|].
    rewrite IH. intuition.
Qed.

Lemma insert_key_sorted (k : Z) (ks : list Z) :
  StronglySorted Z.lt ks -> StronglySorted Z.lt (insert_key k ks).
Proof.
  induction 1 as [|h t Hs IH Hh]; simpl.
  - repeat constructor.
  - destruct (Z.ltb_spec k h).
    + constructor; [constructor; assumption|].
      constructor; [assumption|].
      eapply Forall_impl; [|exact Hh]. intros; lia.
    + destruct (Z.eqb_spec k h); [constructor; assumption|].
      constructor; [exact IH|].
      apply Forall_forall. intros x Hx. apply insert_key_In in Hx.
      destruct Hx as [->|Hx]; [lia|].
      rewrite Forall_forall in Hh. now apply Hh.
Qed.

Lemma group_keys_In (xs : list Z) (x : Z) : In x (group_keys xs) <-> In x xs.
Proof.
  induction xs as [|a t IH]; simpl; [tauto|].
  rewrite insert_key_In, IH. intuition.
Qed.

Lemma group_keys_sorted (xs : list Z) : StronglySorted Z.lt (group_keys xs).
Proof.
  induction xs as [|a t IH]; simpl; [constructor|].
  now apply insert_key_sorted.
Qed.

Lemma year_group_length (view : list Listing) (k : Z) :
  length (year_group view k) = count_occ Z.eq_dec (map (@annee _ _) view) k.
Proof.
  unfold year_group. induction view as [|l t IH]; simpl; [reflexivity|].
  destruct (Z.eqb_spec (annee l) k); destruct (Z.eq_dec (annee l) k);
    simpl; try contradiction; now rewrite IH.
Qed.

Lemma Zpos_of_nat_S (n : nat) : Z.pos (Pos.of_nat (S n)) = Z.of_nat (S n).
Proof. rewrite <- Pos.of_nat_succ, Zpos_P_of_succ_nat. lia. Qed.

Lemma mean_Fin (xs : list Z) :
  xs <> [] ->
  exists q, mean xs = Fin q /\
            (q * inject_Z (Z.of_nat (length xs)) == inject_Z (sumZ xs))%Q.
Proof.
  destruct xs as [|a t]; [congruence|]. intros _.
  eexists. split; [reflexivity|].
  unfold Qeq, Qmult, inject_Z. cbn [Qnum Qden length].
  rewrite Pos.mul_1_r, Z.mul_1_r, Zpos_of_nat_S. reflexivity.
Qed.

(** C7.  The per-year aggregate has one entry per model year present in
    the view and none for a year that is absent; the years are strictly
    increasing; each count is the number of listings of that year in the
    view (hence positive); each mean is a number, the sum of the prices
    of the listings of that year divided by their count. *)
Theorem prix_par_annee_spec (view : list Listing) :
  StronglySorted Z.lt (map ys_annee (prix_par_annee view)) /\
  (forall y, In y (map ys_annee (prix_par_annee view)) <->
             exists l, In l view /\ annee l = y) /\
  Forall (fun e =>
            ys_count e = count_occ Z.eq_dec (map (@annee _ _) view) (ys_annee e) /\
            (0 < ys_count e)%nat /\
            exists q, ys_mean e = Fin q /\
              (q * inject_Z (Z.of_nat (ys_count e)) ==
               inject_Z (sumZ (map (@prix_eur _ _)
                                   (filter (fun l => annee l =? ys_annee e) view))))%Q)
         (prix_par_annee view).
Proof.
  assert (K : map ys_annee (prix_par_annee view) = group_keys (map (@annee _ _) view)).
  { unfold prix_par_annee. rewrite map_map. simpl. apply map_id. }
  rewrite K. split; [apply group_keys_sorted|]. split.
  - intros y. rewrite group_keys_In, in_map_iff.
    split; intros [l H]; exists l; tauto.
  - unfold prix_par_annee. apply Forall_forall. intros e He.
    apply in_map_iff in He. destruct He as [k [<- Hk]]. cbn [ys_annee ys_count ys_mean].
    apply (proj1 (group_keys_In _ _)) in Hk.
    assert (N : year_group view k <> []).
    { apply in_map_iff in Hk. destruct Hk as [l [Ha Hl]].
      assert (Hin : In l (year_group view k)).
      { unfold year_group. apply filter_In. split; [exact Hl|]. now apply Z.eqb_eq. }
      intros E. rewrite E in Hin. exact Hin. }
    split; [apply year_group_length|]. split.
    + destruct (year_group view k); [congruence | simpl; lia].
    + destruct (@mean_Fin (map (@prix_eur _ _) (year_group view k))) as [q [Hq1 Hq2]].
      { destruct (year_group view k); [congruence | discriminate]. }
      exists q. split; [exact Hq1|].
      rewrite length_map in Hq2. exact Hq2.
Qed.

(* ================================================================= *)
(** ** Key statistics *)

Lemma mean_NaN (xs : list Z) : mean xs = NaN <-> xs = [].
Proof. destruct xs; simpl; split; intros; congruence. Qed.

Lemma median_NaN (xs : list Z) : median xs = NaN <-> xs = [].
Proof.
  destruct xs as [|a t]; unfold median; [tauto|].
  destruct (Nat.even (length (a :: t))); split; intros; discriminate.
Qed.

Lemma map_nil_iff (A B : Type) (f : A -> B) (l : list A) : map f l = [] <-> l = [].
Proof. destruct l; simpl; split; intros; congruence. Qed.

(** C1, as the code has it.  The block of metrics always returns: the
    count is the number of rows, and the mean price, the median price
    and the mean mileage are NaN exactly when the view is empty; on a
    view with rows the mean price is the sum of the prices divided by
    the number of rows. *)
Theorem key_stats_total (view : list Listing) :
  exists s, key_stats view = Ok s /\
    nombre s = length view /\
    (prix_moyen s = NaN <-> view = []) /\
    (prix_median s = NaN <-> view = []) /\
    (km_moyen s = NaN <-> view = []) /\
    (forall q, prix_moyen s = Fin q ->
       (q * inject_Z (Z.of_nat (length view)) ==
        inject_Z (sumZ (map (@prix_eur _ _) view)))%Q).
Proof.
  eexists. split; [reflexivity|]. cbn [nombre prix_moyen prix_median km_moyen].
  split; [reflexivity|].
  rewrite !mean_NaN, median_NaN, !map_nil_iff.
  repeat (split; [tauto|]).
  intros q Hq. destruct view as [|l t]; [discriminate|].
  destruct (@mean_Fin (map (@prix_eur _ _) (l :: t))) as [q' [H1 H2]]; [discriminate|].
  rewrite H1 in Hq. injection Hq as <-. rewrite length_map in H2. exact H2.
Qed.

(** C1, as stated, fails on the empty view: no error is raised and the
    value returned carries plain NaN for the mean and the median. *)
Lemma key_stats_empty_is_nan :
  key_stats [] = Ok (mkSummary 0 NaN NaN NaN) /\
  ~ ((exists e, key_stats [] = Raise e) \/
     (exists s, key_stats [] = Ok s /\ prix_moyen s <> NaN /\ prix_median s <> NaN)).
Proof.
  split; [reflexivity|].
  intros [[e H] | [s [H [H1 _]]]].
  - discriminate H.
  - injection H as <-. apply H1. reflexivity.
Qed.

(* ================================================================= *)
(** ** Record store *)

Section RecordStore.
Variable conv : Conversion.

Lemma to_datetime_ok (rows : list RawRow) :
  Forall (fun r => ~ unparsable_date conv r) rows ->
  to_datetime conv rows = Ok (map (dated conv) rows).
Proof.
  unfold to_datetime.
  induction 1 as [|r t Hr _ IH]; [reflexivity|].
  cbn [mapM map]. rewrite IH.
  unfold dated, parse_cell, to_datetime_cell.
  destruct (date_publication r) as [s|] eqn:Hd; [|reflexivity].
  destruct (conv s) eqn:Hs; try reflexivity.
  exfalso. apply Hr. exists s. auto.
Qed.

Lemma to_datetime_raises (rows : list RawRow) :
  Exists (unparsable_date conv) rows -> to_datetime conv rows = Raise ValueError.
Proof.
  unfold to_datetime.
  induction 1 as [r t [s [Hd Hs]] | r t _ IH]; cbn [mapM].
  - unfold to_datetime_cell. now rewrite Hd, Hs.
  - rewrite IH. unfold to_datetime_cell.
    destruct (date_publication r) as [s|]; [|reflexivity].
    destruct (conv s); reflexivity.
Qed.

Lemma to_datetime_exn (rows : list RawRow) (e : exn) :
  to_datetime conv rows = Raise e -> e = ValueError.
Proof.
  unfold to_datetime. induction rows as [|r t IH]; cbn [mapM]; [discriminate|].
  unfold to_datetime_cell.
  destruct (date_publication r) as [s|]; [destruct (conv s)|];
    cbn [bind]; try (intros H; congruence).
  all: match goal with |- context [mapM ?f ?l] => destruct (mapM f l) eqn:Et end;
    cbn [bind]; [discriminate|];
    intros H; injection H as He; rewrite He in Et; exact (IH Et).
Qed.

Lemma dropna_dated (rows : list RawRow) :
  dropna (map (dated conv) rows) = map (dated conv) (filter (complete conv) rows).
Proof.
  unfold dropna.
  induction rows as [|r t IH]; [reflexivity|].
  cbn [map filter]. rewrite IH.
  change (pcell_notna (prix_eur (dated conv r)) &&
          date_notna (date_publication (dated conv r)))
    with (complete conv r).
  destruct (complete conv r); reflexivity.
Qed.

Lemma complete_when_dated (rows : list RawRow) :
  Forall (date_well_formed conv) rows ->
  filter (complete conv) rows = filter (fun r => negb (price_missing r)) rows.
Proof.
  induction 1 as [|r t [s [d [Hd Hs]]] _ IH]; [reflexivity|].
  cbn [filter]. rewrite IH.
  unfold complete, price_missing, parse_cell. rewrite Hd, Hs.
  destruct (prix_eur r); reflexivity.
Qed.

Lemma well_formed_parsable (r : RawRow) :
  date_well_formed conv r -> ~ unparsable_date conv r.
Proof.
  intros [s [d [H1 H2]]] [s' [H3 H4]]. congruence.
Qed.

Lemma complete_filled (r : RawRow) :
  complete conv r = true ->
  prix_eur (dated conv r) <> PNaN /\ date_publication (dated conv r) <> None.
Proof.
  unfold complete, dated. cbn [prix_eur date_publication set_date].
  intros H. apply andb_true_iff in H. destruct H as [Hp Hd]. split.
  - destruct (prix_eur r); [discriminate Hp | discriminate | discriminate].
  - destruct (parse_cell conv (date_publication r)); [discriminate | discriminate Hd].
Qed.

(** C2, as the code has it, for every conversion of the date texts.
    [load_data] fails with the missing-file error exactly when the file
    is not there.  When the file is there and the conversion refuses the
    text of some date cell, the whole load fails with a value error.
    Otherwise it returns, in their order and with the date converted,
    the rows whose price cell is filled and whose date cell converts to
    a date; every row returned has a date and a price cell.  If moreover
    every date cell converts to a date, the number of rows returned plus
    the number of rows without a price is the number of rows read. *)
Theorem load_data_spec (src : Source) :
  (load_data conv src = Raise FileNotFoundError <-> src = None) /\
  (forall rows, src = Some rows ->
     (Exists (unparsable_date conv) rows -> load_data conv src = Raise ValueError) /\
     (Forall (fun r => ~ unparsable_date conv r) rows ->
        load_data conv src = Ok (map (dated conv) (filter (complete conv) rows)) /\
        Forall (fun r => prix_eur r <> PNaN /\ date_publication r <> None)
               (map (dated conv) (filter (complete conv) rows))) /\
     (Forall (date_well_formed conv) rows ->
        exists out, load_data conv src = Ok out /\
          (length out + length (filter price_missing rows) = length rows)%nat)).
Proof.
  split.
  - destruct src as [rows|]; [|split; reflexivity].
    split; [|discriminate]. unfold load_data. cbn [read_csv bind].
    destruct (to_datetime conv rows) eqn:E; cbn [bind]; [discriminate|].
    intros H. injection H as ->. apply to_datetime_exn in E. discriminate E.
  - intros rows ->. unfold load_data. cbn [read_csv bind]. split; [|split].
    + intros H. now rewrite (to_datetime_raises H).
    + intros H. rewrite (to_datetime_ok H). cbn [bind].
      rewrite dropna_dated. split; [reflexivity|].
      apply Forall_forall. intros r Hr. apply in_map_iff in Hr.
      destruct Hr as [r0 [<- Hr0]]. apply filter_In in Hr0.
      apply complete_filled. tauto.
    + intros H.
      assert (Hp : Forall (fun r => ~ unparsable_date conv r) rows)
        by (eapply Forall_impl; [|exact H]; apply well_formed_parsable).
      rewrite (to_datetime_ok Hp). cbn [bind]. rewrite dropna_dated.
      eexists. split; [reflexivity|].
      rewrite length_map, (complete_when_dated H).
      rewrite Nat.add_comm. apply filter_length.
Qed.
End RecordStore.

(** C2, as stated, fails on a file that is there: a date cell that
    does not match the format makes the whole load fail with a value
    error, the other row is not returned; and a price cell holding text
    is not dropped. *)
Lemma load_data_unparsable_cells :
  load_data dmY_text
            (Some [ raw (Some "03/01/2024"%string) (PNum 9500);
                    raw (Some "2024-01-15"%string) (PNum 12000) ])
  = Raise ValueError /\
  load_data dmY_text
            (Some [ raw (Some "03/01/2024"%string) (PStr "9500");
                    raw (Some "15/01/2024"%string) (PStr "sur demande") ])
  = Ok [ set_date (raw None (PStr "9500")) (Some (mkdate 2024 1 3));
         set_date (raw None (PStr "sur demande")) (Some (mkdate 2024 1 15)) ].
Proof. split; reflexivity. Qed.

Lemma load_data_spec_witness :
  exists out, load_data dmY_text (Some seven_rows) = Ok out /\ length out = 5%nat.
Proof.
  destruct (load_data_spec dmY_text (Some seven_rows)) as [_ H].
  destruct (H seven_rows eq_refl) as [_ [_ H3]].
  destruct H3 as [out [Ho Hl]].
  - repeat constructor; (eexists; eexists; split; reflexivity).
  - exists out. split; [exact Ho|]. cbn in Hl. lia.
Defined.

Lemma df_filtered_iff_witness :
  date_range wide_criteria = [mkdate 2024 1 1; mkdate 2024 12 31] /\
  (In (listing (mkdate 2024 1 11) 1999 100000 2000 "particulier")
      (df_filtered two_points wide_criteria) <->
   In (listing (mkdate 2024 1 11) 1999 100000 2000 "particulier") two_points /\
   passes (mkdate 2024 1 1) (mkdate 2024 12 31) wide_criteria
          (listing (mkdate 2024 1 11) 1999 100000 2000 "particulier")).
Proof.
  split; [reflexivity|].
  apply (@df_filtered_iff two_points wide_criteria (mkdate 2024 1 1) (mkdate 2024 12 31)).
  reflexivity.
Defined.

Lemma inverted_range_empty_witness :
  inverted inverted_dates /\
  df_filtered two_points inverted_dates = [] /\
  length (df_filtered two_points inverted_dates) = 0%nat.
Proof.
  assert (H : inverted inverted_dates).
  { left. exists (mkdate 2024 12 31), (mkdate 2024 1 1).
    split; [reflexivity|]. unfold date_lt. simpl. lia. }
  split; [exact H|].
  apply (@inverted_range_empty two_points inverted_dates H).
Defined.

(* ================================================================= *)
(** ** Detailed table *)

Section SortValues.
Variable A : Type.
Variable key : A -> string.

Lemma insert_desc_perm (x : A) (l : list A) :
  Permutation (insert_desc key x l) (x :: l).
Proof.
  induction l as [|h t IH]; simpl; [reflexivity|].
  destruct (String.leb (key h) (key x)); [reflexivity|].
  rewrite IH. apply perm_swap.
Qed.

Lemma insert_desc_sorted (x : A) (l : list A) :
  Sorted (text_geb key) l -> Sorted (text_geb key) (insert_desc key x l).
Proof.
  induction 1 as [|h t Hs IH Hh]; simpl; [repeat constructor|].
  destruct (String.leb (key h) (key x)) eqn:E.
  - constructor; [constructor; assumption|]. constructor. exact E.
  - constructor; [exact IH|].
    assert (G : text_geb key h x).
    { unfold text_geb. destruct (String.leb_total (key x) (key h)); congruence. }
    destruct t as [|h' t']; simpl; [constructor; exact G|].
    destruct (String.leb (key h') (key x)); constructor;
      [exact G | now inversion Hh].
Qed.

(** What [sort_values] does give: the same rows, in decreasing order
    of the text of the key. *)
Lemma sort_values_desc_spec (l : list A) :
  Permutation (sort_values_desc key l) l /\ Sorted (text_geb key) (sort_values_desc key l).
Proof.
  induction l as [|a t [IHp IHs]]; simpl; [split; constructor|].
  split.
  - rewrite insert_desc_perm. now constructor.
  - now apply insert_desc_sorted.
Qed.
End SortValues.

(** C6 fails on the code: the table is sorted on the text of the date,
    day first, so a listing of 31/01/2020 is shown above one of
    01/02/2021. *)
Theorem df_display_not_reverse_chronological :
  map (@date_publication _ _) (df_display sample_view)
    = ["31/01/2020"%string; "01/02/2021"%string] /\
  ~ reverse_chronological (df_display sample_view).
Proof.
  split; [reflexivity|].
  intros H.
  specialize (H 0%nat 1%nat _ _ (mkdate 2020 1 31) (mkdate 2021 2 1)
                (Nat.lt_0_1) eq_refl eq_refl eq_refl eq_refl).
  unfold date_le in H. simpl in H. lia.
Qed.

(* ================================================================= *)
(** ** Trend line *)

Lemma fold_min_le (o : Z) (os : list Z) :
  forall x, In x (o :: os) -> fold_right Z.min o os <= x.
Proof.
  induction os as [|a t IH]; simpl; intros x Hx.
  - destruct Hx as [->|[]]. lia.
  - destruct Hx as [->|[->|Hx]].
    + specialize (IH x (or_introl eq_refl)). lia.
    + lia.
    + specialize (IH x (or_intror Hx)). lia.
Qed.

Lemma fold_min_In (o : Z) (os : list Z) : In (fold_right Z.min o os) (o :: os).
Proof.
  induction os as [|a t IH]; simpl; [now left|].
  destruct (Z.min_spec a (fold_right Z.min o t)) as [[_ ->]|[_ ->]].
  - right. now left.
  - destruct IH as [IH|IH]; [now left | right; now right].
Qed.

(** The abscissas are the day offsets from the earliest date of the view. *)
Lemma date_num_spec (view : list Listing) :
  view <> [] ->
  exists l0, In l0 view /\
    (forall l, In l view ->
       toordinal (date_publication l0) <= toordinal (date_publication l)) /\
    date_num view =
      map (fun l => toordinal (date_publication l) - toordinal (date_publication l0)) view.
Proof.
  destruct view as [|h t]; [congruence|]. intros _.
  pose (f := fun l : Listing => toordinal (date_publication l)).
  pose (m := fold_right Z.min (f h) (map f t)).
  assert (Hd : date_num (h :: t) = map (fun l => f l - m) (h :: t)).
  { unfold date_num. cbn [map]. fold f. fold m. f_equal. rewrite map_map. reflexivity. }
  assert (Hle : forall l, In l (h :: t) -> m <= f l).
  { intros l Hl. apply fold_min_le.
    change (f h :: map f t) with (map f (h :: t)). now apply in_map. }
  assert (Hin : In m (map f (h :: t))) by apply fold_min_In.
  apply in_map_iff in Hin. destruct Hin as [l0 [H0 Hl0]].
  exists l0. split; [exact Hl0|]. split.
  - intros l Hl. fold (f l0) (f l). rewrite H0. now apply Hle.
  - rewrite Hd. fold (f l0). rewrite H0. reflexivity.
Qed.

Section SumOfSquares.
Local Open Scope Q_scope.
Implicit Types (pts : list (Q * Q)).

Lemma Qsquare_nonneg (q : Q) : 0 <= q * q.
Proof.
  unfold Qle, Qmult. cbn [Qnum Qden]. rewrite Z.mul_1_r. apply Z.square_nonneg.
Qed.

Lemma Qadd_nonneg_pos (a b : Q) : 0 <= a -> 0 < b -> 0 < a + b.
Proof.
  intros Ha Hb. apply Qlt_le_trans with (0 + b).
  - now rewrite Qplus_0_l.
  - apply Qplus_le_compat; [exact Ha | apply Qle_refl].
Qed.

Lemma s_xx_nonneg pts : 0 <= s_xx pts.
Proof.
  unfold s_xx. induction pts as [|p t IH]; cbn [map sumQ fold_right].
  - apply Qle_refl.
  - fold (sumQ (map (fun p => fst p * fst p) t)).
    rewrite <- (Qplus_0_l 0). apply Qplus_le_compat; [apply Qsquare_nonneg | exact IH].
Qed.

(** All abscissas zero: the column of the design matrix has norm 0. *)
Lemma s_xx_flat pts : (forall p, In p pts -> fst p == 0) -> s_xx pts == 0.
Proof.
  unfold s_xx. induction pts as [|p t IH]; intros H; [reflexivity|].
  cbn [map sumQ fold_right]. fold (sumQ (map (fun p => fst p * fst p) t)).
  rewrite IH by (intros q Hq; apply H; now right).
  rewrite (H p (or_introl eq_refl)). ring.
Qed.

(** One abscissa that is not zero: the norm is not 0. *)
Lemma s_xx_pos pts (p : Q * Q) : In p pts -> ~ fst p == 0 -> 0 < s_xx pts.
Proof.
  induction pts as [|h t IH]; [intros []|].
  intros [->|Hp] Hne; unfold s_xx; cbn [map sumQ fold_right];
    fold (sumQ (map (fun p => fst p * fst p) t)); fold (s_xx t).
  - rewrite Qplus_comm. apply Qadd_nonneg_pos; [apply s_xx_nonneg|].
    destruct (Qlt_le_dec 0 (fst p * fst p)) as [L|L]; [exact L|].
    exfalso. apply Hne.
    assert (Z0 : fst p * fst p == 0)
      by (apply Qle_antisym; [exact L | apply Qsquare_nonneg]).
    apply Qmult_integral in Z0. tauto.
  - apply Qadd_nonneg_pos; [apply Qsquare_nonneg | now apply IH].
Qed.
End SumOfSquares.

Lemma combine_map (A B C : Type) (f : A -> B) (g : A -> C) (l : list A) :
  combine (map f l) (map g l) = map (fun x => (f x, g x)) l.
Proof. induction l as [|a t IH]; simpl; [reflexivity | now rewrite IH]. Qed.

(** The points of the fit: for each listing of the view, its distance
    in days from the earliest listing of the view, and its price. *)
Lemma trend_points_spec (view : list Listing) :
  view <> [] ->
  exists l0, In l0 view /\
    (forall l, In l view ->
       toordinal (date_publication l0) <= toordinal (date_publication l)) /\
    trend_points view =
      map (fun l => (inject_Z (toordinal (date_publication l)
                               - toordinal (date_publication l0)),
                     inject_Z (prix_eur l))) view.
Proof.
  intros Hv. destruct (date_num_spec Hv) as [l0 [Hin [Hmin Hd]]].
  exists l0. split; [exact Hin|]. split; [exact Hmin|].
  unfold trend_points. rewrite Hd, map_map. apply combine_map.
Qed.

Lemma tendance_two_rows (lstsq : Solver) (view : list Listing) :
  (2 <= length view)%nat -> tendance lstsq view = fit_outcome lstsq (trend_points view).
Proof.
  intros H. unfold tendance.
  destruct (Nat.ltb_spec 1 (length view)); [reflexivity | lia].
Qed.

Lemma tendance_fitted_nonempty (lstsq : Solver) (view : list Listing) (m : LinearModel) :
  tendance lstsq view = Fitted m -> view <> [].
Proof. intros H E. rewrite E in H. discriminate H. Qed.

(** C4 fails on the code, whatever the solver: two listings published
    on the same day pass the guard, which counts rows; both day offsets
    are 0; and the fit raises instead of being skipped. *)
Theorem tendance_same_day_raises (lstsq : Solver) :
  (1 <? length same_day_pair)%nat = true /\
  date_num same_day_pair = [0; 0] /\
  tendance lstsq same_day_pair = Breakdown /\
  tendance lstsq same_day_pair <> Skipped.
Proof.
  split; [reflexivity|]. split; [reflexivity|].
  assert (E : tendance lstsq same_day_pair = Breakdown) by reflexivity.
  split; [exact E|]. rewrite E. discriminate.
Qed.

(* ================================================================= *)
(** * Further properties of the code *)

(* ================================================================= *)
(** ** Filter block: algebra of the masks *)

Lemma filter_twice (A : Type) (f g : A -> bool) (l : list A) :
  filter f (filter g l) = filter (fun x => g x && f x) l.
Proof.
  induction l as [|a t IH]; simpl; [reflexivity|].
  destruct (g a); simpl; [destruct (f a)|]; now rewrite IH.
Qed.

Lemma filter_same_mask (A : Type) (f g : A -> bool) (l : list A) :
  (forall x, In x l -> f x = g x) -> filter f l = filter g l.
Proof.
  induction l as [|a t IH]; intros H; simpl; [reflexivity|].
  rewrite (H a (or_introl eq_refl)), IH; [reflexivity|].
  intros x Hx. apply H. now right.
Qed.

(** The two indexing steps amount to one mask. *)
Lemma df_filtered_as_mask (df : list Listing) (c : Criteria) :
  df_filtered df c = filter (row_mask c) df.
Proof.
  unfold df_filtered, row_mask.
  destruct (date_range c) as [|lo [|hi [|x r]]]; try reflexivity.
  apply filter_twice.
Qed.

(** With no seller type selected nothing is shown, whatever the other
    widgets hold. *)
Theorem no_seller_selected_empty (df : list Listing) (c : Criteria) :
  type_vendeur_sel c = [] -> df_filtered df c = [].
Proof.
  intros H. unfold df_filtered. apply filter_none. intros x _.
  unfold other_mask. rewrite H. simpl. apply andb_false_r.
Qed.

Lemma no_seller_selected_empty_witness :
  df_filtered two_points
    (mkCriteria [mkdate 2024 1 1; mkdate 2024 12 31]
                (1995, 2003) (0, 300000) (0, 50000) []) = [].
Proof. apply no_seller_selected_empty. reflexivity. Defined.

(** Filtering by one set of criteria and then by another gives the same
    rows, in the same order, as filtering in the other order. *)
Theorem df_filtered_commute (df : list Listing) (c1 c2 : Criteria) :
  df_filtered (df_filtered df c1) c2 = df_filtered (df_filtered df c2) c1.
Proof.
  rewrite !df_filtered_as_mask, !filter_twice.
  apply filter_same_mask. intros x _. apply andb_comm.
Qed.

Lemma row_mask_narrower (c c' : Criteria) (l : Listing) :
  narrower c c' -> row_mask c l = true -> row_mask c' l = true.
Proof.
  intros [[lo [hi [lo' [hi' [Hr [Hr' [Hlo Hhi]]]]]]] [Ha [Hk [Hp Hs]]]].
  unfold row_mask. rewrite Hr, Hr', !andb_true_iff.
  rewrite !date_mask_spec, !other_mask_spec. unfold in_range.
  intros [[D1 D2] [A1 [K1 [P1 S1]]]].
  repeat split; try lia.
  - eapply date_le_trans; eassumption.
  - eapply date_le_trans; eassumption.
  - apply Hs. exact S1.
Qed.

(** Tightening the widgets never brings a row in: the view for the
    narrower criteria is a subsequence of the view for the wider ones,
    and it is what the narrower criteria select from the wider view. *)
Theorem df_filtered_narrower (df : list Listing) (c c' : Criteria) :
  narrower c c' ->
  df_filtered (df_filtered df c') c = df_filtered df c /\
  subseq (df_filtered df c) (df_filtered df c').
Proof.
  intros H.
  assert (E : df_filtered (df_filtered df c') c = df_filtered df c).
  { rewrite !df_filtered_as_mask, filter_twice.
    apply filter_same_mask. intros x _.
    destruct (row_mask c x) eqn:M; [|apply andb_false_r].
    now rewrite (row_mask_narrower x H M). }
  split; [exact E|].
  rewrite <- E. rewrite (df_filtered_as_mask (df_filtered df c') c).
  apply subseq_filter.
Qed.

Lemma df_filtered_narrower_witness :
  df_filtered (df_filtered two_points wide_criteria)
    (mkCriteria [mkdate 2024 1 5; mkdate 2024 6 30]
                (1998, 2000) (0, 150000) (1500, 50000) ["particulier"%string])
  = df_filtered two_points
    (mkCriteria [mkdate 2024 1 5; mkdate 2024 6 30]
                (1998, 2000) (0, 150000) (1500, 50000) ["particulier"%string]) /\
  subseq (df_filtered two_points
            (mkCriteria [mkdate 2024 1 5; mkdate 2024 6 30]
                (1998, 2000) (0, 150000) (1500, 50000) ["particulier"%string]))
         (df_filtered two_points wide_criteria).
Proof.
  apply df_filtered_narrower. unfold narrower. cbn.
  split; [|repeat split; try lia].
  - exists (mkdate 2024 1 5), (mkdate 2024 6 30), (mkdate 2024 1 1), (mkdate 2024 12 31).
    repeat split; unfold date_le; cbn; lia.
  - intros x [<-|[]]. left. reflexivity.
Defined.

(* ================================================================= *)
(** ** Calendar: ordinals against dates, text against dates *)

Lemma valid_date_spec (d : date) :
  valid_date d = true <->
  (1 <= year d <= 9999) /\ (1 <= month d <= 12) /\
  (1 <= day d <= days_in_month (year d) (month d)).
Proof.
  unfold valid_date. rewrite !andb_true_iff, !Z.leb_le. tauto.
Qed.

(** Evaluate the list of the months before a given month. *)
Ltac months_before :=
  unfold days_before_month;
  repeat match goal with
  | |- context [map Z.of_nat (seq 1 (Z.to_nat ?e))] =>
      let v := eval vm_compute in (map Z.of_nat (seq 1 (Z.to_nat e))) in
      change (map Z.of_nat (seq 1 (Z.to_nat e))) with v
  end;
  cbn [map fold_right days_in_month Z.eqb Pos.eqb].

Lemma month_cases (m : Z) :
  1 <= m <= 12 ->
  m = 1 \/ m = 2 \/ m = 3 \/ m = 4 \/ m = 5 \/ m = 6 \/
  m = 7 \/ m = 8 \/ m = 9 \/ m = 10 \/ m = 11 \/ m = 12.
Proof. lia. Qed.

(** The days before a month and the days of that month, month by month. *)
Lemma month_table (y m : Z) :
  1 <= m <= 12 ->
  0 <= days_before_month y m /\
  28 <= days_in_month y m /\
  days_before_month y m + days_in_month y m =
    (if m =? 12 then 365 + leap_day y else days_before_month y (m + 1)).
Proof.
  intros H. unfold leap_day.
  destruct (month_cases H) as
    [->|[->|[->|[->|[->|[->|[->|[->|[->|[->|[->| ->]]]]]]]]]]];
    months_before; destruct (is_leap y); lia.
Qed.

Lemma days_before_month_mono (y m1 m2 : Z) :
  1 <= m1 -> m1 < m2 -> m2 <= 12 ->
  days_before_month y m1 + days_in_month y m1 <= days_before_month y m2.
Proof.
  intros H1 H12 H2.
  assert (C1 : 1 <= m1 <= 12) by lia. assert (C2 : 1 <= m2 <= 12) by lia.
  destruct (month_cases C1) as
    [->|[->|[->|[->|[->|[->|[->|[->|[->|[->|[->| ->]]]]]]]]]]];
  destruct (month_cases C2) as
    [->|[->|[->|[->|[->|[->|[->|[->|[->|[->|[->| ->]]]]]]]]]]];
    try lia;
    months_before; destruct (is_leap y); lia.
Qed.

(** A year later starts at least a whole year of days later. *)
Lemma days_before_year_mono (y1 y2 : Z) :
  y1 < y2 -> days_before_year y1 + 365 + leap_day y1 <= days_before_year y2.
Proof.
  intros H. unfold days_before_year, leap_day, is_leap.
  destruct (Z.eqb_spec (y1 mod 4) 0); destruct (Z.eqb_spec (y1 mod 100) 0);
    destruct (Z.eqb_spec (y1 mod 400) 0); cbn [andb orb negb];
    Z.div_mod_to_equations; lia.
Qed.

(** The day of a date falls within its year. *)
Lemma within_year (y m d : Z) :
  1 <= m <= 12 -> d <= days_in_month y m ->
  days_before_month y m + d <= 365 + leap_day y.
Proof.
  intros H Hd. unfold leap_day. revert Hd.
  destruct (month_cases H) as
    [->|[->|[->|[->|[->|[->|[->|[->|[->|[->|[->| ->]]]]]]]]]]];
    months_before; destruct (is_leap y); lia.
Qed.

(** On dates of the calendar the ordinal grows with the date. *)
Lemma toordinal_lt (a b : date) :
  valid_date a = true -> valid_date b = true ->
  date_lt a b -> toordinal a < toordinal b.
Proof.
  rewrite !valid_date_spec. intros [Ya [Ma Da]] [Yb [Mb Db]] H.
  unfold toordinal.
  pose proof (month_table (year b) Mb) as [Pb _].
  destruct H as [Hy | [Hy [Hm | [Hm Hd]]]].
  - pose proof (days_before_year_mono Hy) as Y.
    pose proof (@within_year (year a) (month a) (day a) Ma ltac:(lia)). lia.
  - rewrite Hy in *.
    pose proof (@days_before_month_mono (year b) (month a) (month b)
                  ltac:(lia) Hm ltac:(lia)). lia.
  - rewrite Hy, Hm in *. lia.
Qed.

Lemma date_le_or_lt (a b : date) : date_le a b \/ date_lt b a.
Proof. unfold date_le, date_lt. lia. Qed.

Lemma date_le_antisym (a b : date) : date_le a b -> date_le b a -> a = b.
Proof.
  destruct a as [ya ma da], b as [yb mb db]. unfold date_le. cbn.
  intros H1 H2. assert (ya = yb /\ ma = mb /\ da = db) as [-> [-> ->]] by lia.
  reflexivity.
Qed.

Lemma toordinal_le_date_le (x y : date) :
  valid_date x = true -> valid_date y = true ->
  toordinal x <= toordinal y -> date_le x y.
Proof.
  intros Vx Vy H. destruct (date_le_or_lt x y) as [|Hlt]; [assumption|].
  pose proof (toordinal_lt Vy Vx Hlt). lia.
Qed.

(** The filter compares calendar dates ([.dt.date]); [min()], the chart
    and the trend compare Timestamps.  On dates of the calendar
    the two orders are the same, and different dates have different
    ordinals. *)
Theorem date_order_is_ordinal_order (a b : date) :
  valid_date a = true -> valid_date b = true ->
  (date_le a b <-> toordinal a <= toordinal b) /\
  (toordinal a = toordinal b -> a = b).
Proof.
  intros Va Vb.
  split; [split|].
  - intros H. destruct (Z.le_gt_cases (toordinal a) (toordinal b)) as [|G]; [assumption|].
    assert (date_le b a) by (apply toordinal_le_date_le; [assumption..|lia]).
    assert (a = b) by now apply date_le_antisym. subst. lia.
  - now apply toordinal_le_date_le.
  - intros E. apply date_le_antisym; apply toordinal_le_date_le; try assumption; lia.
Qed.

Lemma date_order_is_ordinal_order_witness :
  (date_le (mkdate 2020 1 31) (mkdate 2021 2 1) <->
   toordinal (mkdate 2020 1 31) <= toordinal (mkdate 2021 2 1)) /\
  (toordinal (mkdate 2020 1 31) = toordinal (mkdate 2021 2 1) ->
   mkdate 2020 1 31 = mkdate 2021 2 1).
Proof. apply date_order_is_ordinal_order; reflexivity. Defined.

(* ----------------------------------------------------------------- *)
(** *** The text of a date *)

Lemma digit_char_facts (n : Z) :
  Ascii.eqb (digit_char n) "/" = false /\
  Ascii.eqb (digit_char n) " " = false /\
  digit_val (digit_char n) = Some (n mod 10).
Proof.
  unfold digit_char.
  generalize (Z.mod_pos_bound n 10 eq_refl). generalize (n mod 10).
  intros k Hk.
  assert (C : k = 0 \/ k = 1 \/ k = 2 \/ k = 3 \/ k = 4 \/
              k = 5 \/ k = 6 \/ k = 7 \/ k = 8 \/ k = 9) by lia.
  destruct C as [->|[->|[->|[->|[->|[->|[->|[->|[->| ->]]]]]]]]];
    repeat split; reflexivity.
Qed.

Lemma split_slash_two (c1 c2 : ascii) (r : string) :
  Ascii.eqb c1 "/" = false -> Ascii.eqb c2 "/" = false ->
  split_slash (String c1 (String c2 (String "/" r))) =
  Some (String c1 (String c2 EmptyString), r).
Proof. intros H1 H2. cbn. now rewrite H1, H2. Qed.

Lemma days_in_month_le (y m : Z) : 1 <= m <= 12 -> days_in_month y m <= 31.
Proof.
  intros H.
  destruct (month_cases H) as
    [->|[->|[->|[->|[->|[->|[->|[->|[->|[->|[->| ->]]]]]]]]]]];
    cbn [days_in_month]; try destruct (is_leap y); lia.
Qed.

Lemma parse_day_text (d : Z) :
  1 <= d <= 31 ->
  parse_day (String (digit_char (d / 10)) (String (digit_char d) EmptyString)) = Some d.
Proof.
  intros H. unfold parse_day.
  destruct (digit_char_facts d) as [_ [_ ->]].
  destruct (digit_char_facts (d / 10)) as [_ [-> ->]].
  replace (10 * ((d / 10) mod 10) + d mod 10) with d
    by (Z.div_mod_to_equations; lia).
  destruct (Z.leb_spec 1 d); [|lia]. destruct (Z.leb_spec d 31); [|lia].
  reflexivity.
Qed.

Lemma parse_month_text (m : Z) :
  1 <= m <= 12 ->
  parse_month (String (digit_char (m / 10)) (String (digit_char m) EmptyString)) = Some m.
Proof.
  intros H. unfold parse_month.
  destruct (digit_char_facts m) as [_ [_ ->]].
  destruct (digit_char_facts (m / 10)) as [_ [_ ->]].
  replace (10 * ((m / 10) mod 10) + m mod 10) with m
    by (Z.div_mod_to_equations; lia).
  destruct (Z.leb_spec 1 m); [|lia]. destruct (Z.leb_spec m 12); [|lia].
  reflexivity.
Qed.

Lemma parse_year_text (y : Z) :
  0 <= y <= 9999 ->
  parse_year (String (digit_char (y / 1000)) (String (digit_char (y / 100))
             (String (digit_char (y / 10)) (String (digit_char y) EmptyString)))) = Some y.
Proof.
  intros H. unfold parse_year.
  destruct (digit_char_facts y) as [_ [_ ->]].
  destruct (digit_char_facts (y / 10)) as [_ [_ ->]].
  destruct (digit_char_facts (y / 100)) as [_ [_ ->]].
  destruct (digit_char_facts (y / 1000)) as [_ [_ ->]].
  f_equal. Z.div_mod_to_equations. lia.
Qed.

Lemma strftime_parses (d : date) :
  valid_date d = true -> strptime_dmY (strftime_dmY d) = Some d.
Proof.
  intros V. pose proof V as V'. apply valid_date_spec in V'.
  destruct V' as [Hy [Hm Hd]].
  pose proof (@days_in_month_le (year d) (month d) Hm) as L.
  unfold strptime_dmY, strftime_dmY.
  rewrite split_slash_two by apply digit_char_facts.
  rewrite split_slash_two by apply digit_char_facts.
  rewrite parse_day_text by lia.
  rewrite parse_month_text by lia.
  rewrite parse_year_text by lia.
  destruct d as [y m dd]. cbn [year month day] in *. now rewrite V.
Qed.

(** Only dates of the calendar come out of the parser. *)
Lemma strptime_valid (s : string) (d : date) :
  strptime_dmY s = Some d -> valid_date d = true.
Proof.
  unfold strptime_dmY.
  destruct (split_slash s) as [[ds r]|]; [|discriminate].
  destruct (split_slash r) as [[ms ys]|]; [|discriminate].
  destruct (parse_day ds); [|discriminate].
  destruct (parse_month ms); [|discriminate].
  destruct (parse_year ys); [|discriminate].
  destruct (valid_date _) eqn:V; [|discriminate].
  intros H. injection H as <-. exact V.
Qed.

(** The text of the table determines the date: read as [DD/MM/YYYY],
    the text made from a date of the calendar gives that date back; and
    whatever date is read from such a text is a date of the calendar,
    whose text reads back to it (the text may differ from the one read,
    as in 1/2/2024 against 01/02/2024). *)
Theorem strptime_strftime (d : date) (s : string) :
  (valid_date d = true -> strptime_dmY (strftime_dmY d) = Some d) /\
  (strptime_dmY s = Some d ->
     valid_date d = true /\ strptime_dmY (strftime_dmY d) = Some d).
Proof.
  split; [apply strftime_parses|].
  intros H. pose proof (strptime_valid s H) as V.
  split; [exact V|]. now apply strftime_parses.
Qed.

Lemma strptime_strftime_witness :
  strptime_dmY (strftime_dmY (mkdate 2024 2 29)) = Some (mkdate 2024 2 29) /\
  strptime_dmY "1/2/2024" = Some (mkdate 2024 2 1) /\
  strptime_dmY (strftime_dmY (mkdate 2024 2 1)) = Some (mkdate 2024 2 1).
Proof.
  split.
  - apply (proj1 (strptime_strftime (mkdate 2024 2 29) "")). reflexivity.
  - split; [reflexivity|].
    apply (proj2 (strptime_strftime (mkdate 2024 2 1) "1/2/2024")). reflexivity.
Defined.


(* ================================================================= *)
(** ** Record store: what every successful load returns *)

Lemma to_datetime_inv (conv : Conversion) (rows : list RawRow) (l : list DatedRow) :
  to_datetime conv rows = Ok l -> Forall (fun r => ~ unparsable_date conv r) rows.
Proof.
  unfold to_datetime. revert l.
  induction rows as [|r t IH]; intros l H; [constructor|].
  cbn [mapM] in H.
  match type of H with context [mapM ?f t] => destruct (mapM f t) as [l'|e] eqn:Et end.
  - constructor; [|eapply IH; reflexivity].
    intros [s [Hd Hs]]. unfold to_datetime_cell in H. rewrite Hd, Hs in H.
    discriminate H.
  - exfalso. destruct (to_datetime_cell conv (date_publication r));
      cbn [bind] in H; discriminate H.
Qed.

(** Whenever the load succeeds, the file was there, the frame is made of
    the rows whose price cell is filled and whose date cell converts to
    a date, in the order of the file, and, the conversion yielding
    dates of the calendar only, every one of them carries a date of the
    calendar. *)
Theorem load_data_ok_inv (conv : Conversion) (src : Source) (out : list DatedRow) :
  (forall s d, conv s = Parsed d -> valid_date d = true) ->
  load_data conv src = Ok out ->
  exists rows, src = Some rows /\
    out = map (dated conv) (filter (complete conv) rows) /\
    (length out <= length rows)%nat /\
    Forall (fun r => exists d, date_publication r = Some d /\ valid_date d = true) out.
Proof.
  intros Hv.
  unfold load_data. destruct src as [rows|]; cbn [read_csv bind]; [|discriminate].
  destruct (to_datetime conv rows) as [l|e] eqn:E; cbn [bind]; [|discriminate].
  intros H. injection H as <-.
  pose proof (to_datetime_inv conv rows E) as P.
  rewrite (to_datetime_ok P) in E. injection E as <-.
  exists rows. split; [reflexivity|]. rewrite dropna_dated.
  split; [reflexivity|]. split.
  - rewrite length_map. apply filter_length_le.
  - apply Forall_forall. intros r Hr. apply in_map_iff in Hr.
    destruct Hr as [r0 [<- Hr0]]. apply filter_In in Hr0. destruct Hr0 as [Hin Hc].
    unfold complete in Hc. apply andb_true_iff in Hc. destruct Hc as [_ Hc].
    unfold dated. cbn [date_publication set_date]. unfold parse_cell in *.
    destruct (date_publication r0) as [s|] eqn:Hd; [|discriminate].
    destruct (conv s) as [d| |] eqn:Hs; try discriminate.
    exists d. split; [reflexivity|]. eapply Hv. exact Hs.
Qed.

Lemma dmY_text_valid (s : string) (d : date) :
  dmY_text s = Parsed d -> valid_date d = true.
Proof.
  unfold dmY_text. destruct (strptime_dmY s) as [d'|] eqn:E; [|discriminate].
  intros H. injection H as <-. eapply strptime_valid. exact E.
Qed.

Lemma load_data_ok_inv_witness :
  exists rows, Some seven_rows = Some rows /\
    map (dated dmY_text) (filter (complete dmY_text) seven_rows)
      = map (dated dmY_text) (filter (complete dmY_text) rows) /\
    (length (map (dated dmY_text) (filter (complete dmY_text) seven_rows))
       <= length rows)%nat /\
    Forall (fun r => exists d, date_publication r = Some d /\ valid_date d = true)
           (map (dated dmY_text) (filter (complete dmY_text) seven_rows)).
Proof.
  apply (@load_data_ok_inv dmY_text (Some seven_rows)).
  - exact dmY_text_valid.
  - reflexivity.
Defined.

(* ================================================================= *)
(** ** Key statistics against the sliders *)

Lemma sumZ_bounds (xs : list Z) (lo hi : Z) :
  (forall x, In x xs -> lo <= x <= hi) ->
  lo * Z.of_nat (length xs) <= sumZ xs <= hi * Z.of_nat (length xs).
Proof.
  induction xs as [|a t IH]; intros H; [simpl; lia|].
  cbn [sumZ fold_right length]. fold (sumZ t).
  pose proof (H a (or_introl eq_refl)).
  assert (IH' : lo * Z.of_nat (length t) <= sumZ t <= hi * Z.of_nat (length t))
    by (apply IH; intros x Hx; apply H; now right).
  rewrite Nat2Z.inj_succ. lia.
Qed.

Lemma mean_between (xs : list Z) (lo hi : Z) :
  xs <> [] -> (forall x, In x xs -> lo <= x <= hi) ->
  pfloat_between lo hi (mean xs).
Proof.
  intros N H. pose proof (sumZ_bounds xs H) as B.
  destruct xs as [|a t]; [congruence|].
  unfold mean, pfloat_between, Qle, inject_Z. cbn [Qnum Qden length] in *.
  rewrite !Zpos_of_nat_S. lia.
Qed.

Lemma insert_asc_In (x y : Z) (l : list Z) :
  In y (insert_asc x l) <-> y = x \/ In y l.
Proof.
  induction l as [|h t IH]; simpl; [intuition|].
  destruct (x <=? h); simpl; [intuition|]. rewrite IH. intuition.
Qed.

Lemma insert_asc_length (x : Z) (l : list Z) :
  length (insert_asc x l) = S (length l).
Proof.
  induction l as [|h t IH]; simpl; [reflexivity|].
  destruct (x <=? h); simpl; [reflexivity | now rewrite IH].
Qed.

Lemma sort_asc_In (xs : list Z) (y : Z) : In y (sort_asc xs) <-> In y xs.
Proof.
  induction xs as [|a t IH]; simpl; [tauto|].
  rewrite insert_asc_In, IH. intuition.
Qed.

Lemma sort_asc_length (xs : list Z) : length (sort_asc xs) = length xs.
Proof.
  induction xs as [|a t IH]; simpl; [reflexivity|].
  now rewrite insert_asc_length, IH.
Qed.

Lemma median_between (xs : list Z) (lo hi : Z) :
  xs <> [] -> (forall x, In x xs -> lo <= x <= hi) ->
  pfloat_between lo hi (median xs).
Proof.
  intros N H.
  assert (P : forall i, (i < length xs)%nat -> lo <= nth i (sort_asc xs) 0 <= hi).
  { intros i Hi. apply H. apply sort_asc_In. apply nth_In.
    now rewrite sort_asc_length. }
  destruct xs as [|a t]; [congruence|]. unfold median.
  set (n := length (a :: t)) in *.
  assert (Hn : (0 < n)%nat) by (unfold n; simpl; lia).
  destruct (Nat.even n) eqn:E.
  - assert (Hn2 : (2 <= n)%nat).
    { destruct n as [|[|k]]; [lia | discriminate E | lia]. }
    assert (H1 : (n / 2 - 1 < n)%nat).
    { pose proof (Nat.div_lt n 2 Hn ltac:(lia)). lia. }
    assert (H2 : (n / 2 < n)%nat) by (apply Nat.div_lt; lia).
    pose proof (P _ H1). pose proof (P _ H2).
    unfold pfloat_between, Qle, inject_Z. cbn [Qnum Qden]. lia.
  - assert (H2 : (n / 2 < n)%nat) by (apply Nat.div_lt; lia).
    pose proof (P _ H2).
    unfold pfloat_between, Qle, inject_Z. cbn [Qnum Qden]. lia.
Qed.

(** The figures shown stay inside the sliders: on a filtered view that
    has rows, the mean and the median price are numbers within the
    price range, and the mean mileage is a number within the mileage
    range. *)
Theorem key_stats_within_sliders (df : list Listing) (c : Criteria) :
  df_filtered df c <> [] ->
  exists s, key_stats (df_filtered df c) = Ok s /\
    pfloat_between (fst (prix_range c)) (snd (prix_range c)) (prix_moyen s) /\
    pfloat_between (fst (prix_range c)) (snd (prix_range c)) (prix_median s) /\
    pfloat_between (fst (km_range c)) (snd (km_range c)) (km_moyen s).
Proof.
  intros N. eexists. split; [reflexivity|].
  cbn [prix_moyen prix_median km_moyen].
  assert (M : forall l, In l (df_filtered df c) ->
                in_range (km_range c) (kilometrage_km l) /\
                in_range (prix_range c) (prix_eur l)).
  { intros l Hl. apply df_filtered_other in Hl. apply other_mask_spec in Hl. tauto. }
  assert (Np : map (@prix_eur _ _) (df_filtered df c) <> [])
    by (now rewrite map_nil_iff).
  assert (Nk : map (@kilometrage_km _ _) (df_filtered df c) <> [])
    by (now rewrite map_nil_iff).
  assert (Bp : forall x, In x (map (@prix_eur _ _) (df_filtered df c)) ->
                 fst (prix_range c) <= x <= snd (prix_range c)).
  { intros x Hx. apply in_map_iff in Hx. destruct Hx as [l [<- Hl]].
    apply (M l Hl). }
  assert (Bk : forall x, In x (map (@kilometrage_km _ _) (df_filtered df c)) ->
                 fst (km_range c) <= x <= snd (km_range c)).
  { intros x Hx. apply in_map_iff in Hx. destruct Hx as [l [<- Hl]].
    apply (M l Hl). }
  split; [now apply mean_between|].
  split; [now apply median_between | now apply mean_between].
Qed.

Lemma key_stats_within_sliders_witness :
  exists s, key_stats (df_filtered two_points wide_criteria) = Ok s /\
    pfloat_between 0 50000 (prix_moyen s) /\
    pfloat_between 0 50000 (prix_median s) /\
    pfloat_between 0 300000 (km_moyen s).
Proof.
  apply (@key_stats_within_sliders two_points wide_criteria).
  vm_compute. discriminate.
Defined.

(* ================================================================= *)
(** ** Per-year aggregate: the groups partition the view *)

Lemma sumZ_map_add (A : Type) (f g : A -> Z) (l : list A) :
  sumZ (map (fun x => f x + g x) l) = sumZ (map f l) + sumZ (map g l).
Proof.
  unfold sumZ. induction l as [|a t IH]; simpl; [reflexivity|]. rewrite IH. lia.
Qed.

Lemma sumZ_map_zero (A : Type) (l : list A) : sumZ (map (fun _ => 0) l) = 0.
Proof. unfold sumZ. induction l as [|a t IH]; simpl; [reflexivity | exact IH]. Qed.

Lemma indicator_sum (keys : list Z) (a v : Z) :
  NoDup keys -> In a keys ->
  sumZ (map (fun k => if a =? k then v else 0) keys) = v.
Proof.
  unfold sumZ. induction 1 as [|k t Hk Hn IH]; [intros []|].
  intros [->|Ha]; cbn [map fold_right].
  - rewrite Z.eqb_refl.
    assert (E : fold_right Z.add 0 (map (fun k => if a =? k then v else 0) t) = 0).
    { clear IH Hn. induction t as [|h t' IHt]; [reflexivity|].
      cbn [map fold_right].
      destruct (Z.eqb_spec a h) as [->|_]; [exfalso; apply Hk; now left|].
      rewrite IHt; [reflexivity|]. intros H. apply Hk. now right. }
    rewrite E. lia.
  - destruct (Z.eqb_spec a k) as [->|_]; [contradiction|].
    rewrite (IH Ha). lia.
Qed.

(** Summing group by group is summing over the view. *)
Lemma group_sum (f : Listing -> Z) (view : list Listing) (keys : list Z) :
  NoDup keys -> (forall l, In l view -> In (annee l) keys) ->
  sumZ (map (fun k => sumZ (map f (year_group view k))) keys) = sumZ (map f view).
Proof.
  intros ND. induction view as [|l t IH]; intros Hc.
  - cbn [year_group filter map]. apply sumZ_map_zero.
  - transitivity
      (sumZ (map (fun k => (if annee l =? k then f l else 0)
                           + sumZ (map f (year_group t k))) keys)).
    + f_equal. apply map_ext. intros k. unfold year_group. cbn [filter].
      destruct (annee l =? k); [reflexivity | lia].
    + rewrite sumZ_map_add, indicator_sum, IH.
      * reflexivity.
      * intros x Hx. apply Hc. now right.
      * exact ND.
      * apply Hc. now left.
Qed.

Lemma sorted_lt_NoDup (ks : list Z) : StronglySorted Z.lt ks -> NoDup ks.
Proof.
  induction 1 as [|k t Hs IH Hk]; constructor; [|exact IH].
  intros Hin. rewrite Forall_forall in Hk. specialize (Hk k Hin). lia.
Qed.

Lemma sumZ_length (A : Type) (l : list A) : sumZ (map (fun _ => 1) l) = Z.of_nat (length l).
Proof.
  unfold sumZ. induction l as [|a t IH]; [reflexivity|].
  cbn [map fold_right length]. rewrite IH. lia.
Qed.

Lemma Qeq_of_eq (x y : Q) : x = y -> (x == y)%Q.
Proof. intros ->. reflexivity. Qed.

Lemma ys_total_group (view : list Listing) (k : Z) :
  (ys_total (mkYearStat k (mean (map (@prix_eur _ _) (year_group view k)))
                        (length (year_group view k)))
   == inject_Z (sumZ (map (@prix_eur _ _) (year_group view k))))%Q.
Proof.
  unfold ys_total. cbn [ys_mean ys_count].
  destruct (year_group view k) as [|l t] eqn:E; [reflexivity|].
  destruct (@mean_Fin (map (@prix_eur _ _) (l :: t))) as [q [H1 H2]]; [discriminate|].
  rewrite H1. rewrite length_map in H2. exact H2.
Qed.

(** The groups partition the view: the counts of the years add up to
    the number of rows, and the year totals (mean times count) add up to
    the sum of all prices, so the per-year means average, weighted by
    their counts, to the overall mean price. *)
Theorem prix_par_annee_partition (view : list Listing) :
  fold_right Nat.add 0%nat (map ys_count (prix_par_annee view)) = length view /\
  (sumQ (map ys_total (prix_par_annee view))
   == inject_Z (sumZ (map (@prix_eur _ _) view)))%Q.
Proof.
  pose proof (sorted_lt_NoDup (group_keys_sorted (map (@annee _ _) view))) as ND.
  assert (Hc : forall l, In l view -> In (annee l) (group_keys (map (@annee _ _) view)))
    by (intros l Hl; apply group_keys_In; now apply in_map).
  unfold prix_par_annee. rewrite !map_map. split.
  - cbn [ys_count]. apply Nat2Z.inj.
    rewrite <- (sumZ_length view), <- (group_sum (fun _ => 1) view ND Hc).
    generalize (group_keys (map (@annee _ _) view)). intros ks.
    induction ks as [|k t IH]; [reflexivity|].
    cbn [map fold_right sumZ]. fold (sumZ (map (fun k => sumZ (map (fun _ : Listing => 1) (year_group view k))) t)).
    rewrite Nat2Z.inj_add, IH, sumZ_length. reflexivity.
  - apply Qeq_trans with
      (inject_Z (sumZ (map (fun k => sumZ (map (@prix_eur _ _) (year_group view k)))
                           (group_keys (map (@annee _ _) view))))).
    2: { apply Qeq_of_eq. f_equal. exact (group_sum (@prix_eur _ _) view ND Hc). }
    generalize (group_keys (map (@annee _ _) view)). intros ks.
    induction ks as [|k t IH]; [reflexivity|].
    cbn [map sumQ sumZ fold_right].
    fold (sumQ (map (fun k => ys_total (mkYearStat k
             (mean (map (@prix_eur _ _) (year_group view k)))
             (length (year_group view k)))) t)).
    fold (sumZ (map (fun k => sumZ (map (@prix_eur _ _) (year_group view k))) t)).
    rewrite IH, ys_total_group, inject_Z_plus. reflexivity.
Qed.

(* ================================================================= *)
(** ** Trend line: offsets, degenerate data, shifts *)

(** The column [date_num]: one offset per row, none negative, and zero
    for the earliest row. *)
Theorem date_num_offsets (view : list Listing) :
  length (date_num view) = length view /\
  Forall (fun x => 0 <= x) (date_num view) /\
  (view = [] \/ In 0 (date_num view)).
Proof.
  destruct view as [|h t]; [repeat split; [constructor | now left]|].
  assert (N : h :: t <> []) by discriminate.
  destruct (date_num_spec N) as [l0 [Hin [Hmin Hd]]].
  rewrite Hd. split; [apply length_map|]. split.
  - apply Forall_forall. intros x Hx. apply in_map_iff in Hx.
    destruct Hx as [l [<- Hl]]. specialize (Hmin l Hl). lia.
  - right. apply in_map_iff. exists l0. split; [lia | exact Hin].
Qed.

Lemma tendance_distinct_dates (lstsq : Solver) (view : list Listing) (l1 l2 : Listing) :
  In l1 view -> In l2 view ->
  toordinal (date_publication l1) <> toordinal (date_publication l2) ->
  tendance lstsq view = Fitted (lstsq (trend_points view)).
Proof.
  intros H1 H2 Hne.
  assert (Hlen : (2 <= length view)%nat).
  { destruct view as [|a [|b t]]; simpl in *; [tauto| |lia].
    destruct H1 as [<-|[]], H2 as [<-|[]]. congruence. }
  rewrite (tendance_two_rows lstsq view Hlen).
  assert (Hv : view <> []) by (intros E; rewrite E in H1; exact H1).
  destruct (trend_points_spec Hv) as [l0 [_ [_ Ht]]].
  set (g := fun l : Listing =>
              (inject_Z (toordinal (date_publication l)
                         - toordinal (date_publication l0)),
               inject_Z (prix_eur l))) in Ht.
  assert (P : (0 < s_xx (trend_points view))%Q).
  { destruct (Z.eq_dec (toordinal (date_publication l1))
                       (toordinal (date_publication l0))) as [E1|N1].
    - apply (@s_xx_pos (trend_points view) (g l2)).
      + rewrite Ht. now apply in_map.
      + unfold g. cbn [fst]. unfold Qeq. cbn. lia.
    - apply (@s_xx_pos (trend_points view) (g l1)).
      + rewrite Ht. now apply in_map.
      + unfold g. cbn [fst]. unfold Qeq. cbn. lia. }
  unfold fit_outcome, polyfit1.
  destruct (Qeq_bool (s_xx (trend_points view)) 0) eqn:E; [|reflexivity].
  apply Qeq_bool_eq in E. rewrite E in P. exfalso. exact (Qlt_irrefl 0 P).
Qed.

(** The fit breaks down exactly when the view has two rows or more and
    all of them were published on the same day. *)
Theorem tendance_breakdown_iff (lstsq : Solver) (view : list Listing) :
  tendance lstsq view = Breakdown <->
  (2 <= length view)%nat /\
  forall l1 l2, In l1 view -> In l2 view ->
    toordinal (date_publication l1) = toordinal (date_publication l2).
Proof.
  split.
  - intros H. split.
    + unfold tendance in H.
      destruct (Nat.ltb_spec 1 (length view)); [lia | discriminate].
    + intros l1 l2 H1 H2.
      destruct (Z.eq_dec (toordinal (date_publication l1))
                         (toordinal (date_publication l2))) as [E|N]; [exact E|].
      rewrite (@tendance_distinct_dates lstsq view l1 l2 H1 H2 N) in H. discriminate H.
  - intros [Hlen Hall]. rewrite (tendance_two_rows lstsq view Hlen).
    assert (Hv : view <> []) by (destruct view; [simpl in Hlen; lia | discriminate]).
    destruct (trend_points_spec Hv) as [l0 [Hin [_ Ht]]].
    unfold fit_outcome, polyfit1.
    assert (D : (s_xx (trend_points view) == 0)%Q).
    { apply s_xx_flat. rewrite Ht. intros p Hp. apply in_map_iff in Hp.
      destruct Hp as [l [<- Hl]]. cbn [fst]. rewrite (Hall l l0 Hl Hin).
      rewrite Z.sub_diag. reflexivity. }
    apply Qeq_bool_iff in D. now rewrite D.
Qed.

Lemma fold_min_shift (k o : Z) (os : list Z) :
  fold_right Z.min (o + k) (map (fun x => x + k) os) = fold_right Z.min o os + k.
Proof. induction os as [|a t IH]; simpl; [reflexivity|]. rewrite IH. lia. Qed.

(** The trend depends on the prices and on the gaps in days between the
    listings only: moving every publication date by the same number of
    days changes neither the points of the fit nor its outcome. *)
Theorem tendance_shift_invariant (lstsq : Solver) (view1 view2 : list Listing) (k : Z) :
  map (@prix_eur _ _) view2 = map (@prix_eur _ _) view1 ->
  map (fun l => toordinal (date_publication l)) view2 =
    map (fun l => toordinal (date_publication l) + k) view1 ->
  trend_points view2 = trend_points view1 /\
  tendance lstsq view2 = tendance lstsq view1.
Proof.
  intros Hp Hd.
  assert (Hn : date_num view2 = date_num view1).
  { unfold date_num. rewrite Hd.
    destruct view1 as [|h t]; [reflexivity|].
    cbn [map]. rewrite <- (map_map _ (fun x => x + k)), fold_min_shift.
    cbn [map]. f_equal; [lia|]. rewrite !map_map. apply map_ext. intros; lia. }
  assert (Hl : length view2 = length view1).
  { pose proof (f_equal (@length Z) Hp) as E. rewrite !length_map in E. exact E. }
  assert (Ht : trend_points view2 = trend_points view1).
  { unfold trend_points. rewrite Hn.
    f_equal. pose proof (f_equal (map inject_Z) Hp) as E.
    rewrite !map_map in E. exact E. }
  split; [exact Ht|]. unfold tendance. now rewrite Hl, Ht.
Qed.

Lemma tendance_shift_invariant_witness :
  trend_points [ listing (mkdate 2023 3 1) 1999 100000 1000 "particulier";
                 listing (mkdate 2023 3 11) 1999 100000 2000 "particulier" ]
    = trend_points two_points /\
  tendance exact_line
           [ listing (mkdate 2023 3 1) 1999 100000 1000 "particulier";
             listing (mkdate 2023 3 11) 1999 100000 2000 "particulier" ]
    = tendance exact_line two_points.
Proof.
  apply (@tendance_shift_invariant exact_line two_points _ (-306)); reflexivity.
Defined.

Lemma tendance_breakdown_iff_witness :
  tendance exact_line
           [ listing (mkdate 2024 3 5) 1999 100000 9000 "particulier";
             listing (mkdate 2024 3 5) 2001 80000 12000 "professionnel";
             listing (mkdate 2024 3 5) 2000 60000 15000 "particulier" ] = Breakdown.
Proof.
  apply (proj2 (tendance_breakdown_iff exact_line _)). split; [simpl; lia|].
  intros l1 l2 [<-|[<-|[<-|[]]]] [<-|[<-|[<-|[]]]]; reflexivity.
Defined.

(* ================================================================= *)
(** ** Time chart and trend trace *)

Section SortAsc.
Variable A : Type.
Variable key : A -> Z.

Lemma insert_by_perm (x : A) (l : list A) :
  Permutation (insert_by key x l) (x :: l).
Proof.
  induction l as [|h t IH]; simpl; [reflexivity|].
  destruct (key x <=? key h); [reflexivity|].
  rewrite IH. apply perm_swap.
Qed.

Lemma insert_by_sorted (x : A) (l : list A) :
  StronglySorted (fun a b => key a <= key b) l ->
  StronglySorted (fun a b => key a <= key b) (insert_by key x l).
Proof.
  induction 1 as [|h t Hs IH Hh]; simpl; [repeat constructor|].
  destruct (Z.leb_spec (key x) (key h)).
  - constructor; [constructor; assumption|].
    constructor; [assumption|].
    eapply Forall_impl; [|exact Hh]. cbn. intros; lia.
  - constructor; [exact IH|].
    apply Forall_forall. intros y Hy.
    apply (Permutation_in _ (insert_by_perm x t)) in Hy.
    destruct Hy as [<-|Hy]; [lia|].
    rewrite Forall_forall in Hh. now apply Hh.
Qed.

Lemma sort_values_asc_spec (l : list A) :
  Permutation (sort_values_asc key l) l /\
  StronglySorted (fun a b => key a <= key b) (sort_values_asc key l).
Proof.
  induction l as [|a t [IHp IHs]]; simpl; [split; constructor|].
  split.
  - rewrite insert_by_perm. now constructor.
  - now apply insert_by_sorted.
Qed.
End SortAsc.

Lemma StronglySorted_weaken (A : Type) (R R' : A -> A -> Prop) (l : list A) :
  (forall a b, In a l -> In b l -> R a b -> R' a b) ->
  StronglySorted R l -> StronglySorted R' l.
Proof.
  intros H S. induction S as [|h t Hs IH Hh]; constructor.
  - apply IH. intros a b Ha Hb. apply H; now right.
  - rewrite Forall_forall in *. intros y Hy.
    apply H; [now left | now right | now apply Hh].
Qed.

Lemma StronglySorted_map (A B : Type) (f : A -> B) (R : B -> B -> Prop) (l : list A) :
  StronglySorted (fun a b => R (f a) (f b)) l -> StronglySorted R (map f l).
Proof.
  induction 1 as [|h t Hs IH Hh]; cbn [map]; constructor; [exact IH|].
  rewrite Forall_forall in *. intros y Hy. apply in_map_iff in Hy.
  destruct Hy as [x [<- Hx]]. now apply Hh.
Qed.

(** The time chart gets the rows of the view, each once, from the
    earliest to the latest publication date. *)
Theorem chart_rows_chronological (view : list Listing) :
  Forall (fun l => valid_date (date_publication l) = true) view ->
  Permutation (chart_rows view) view /\
  StronglySorted (fun a b => date_le (date_publication a) (date_publication b))
                 (chart_rows view).
Proof.
  intros V. unfold chart_rows.
  destruct (sort_values_asc_spec (fun l : Listing => toordinal (date_publication l)) view)
    as [P S].
  split; [exact P|].
  eapply StronglySorted_weaken; [|exact S].
  cbn. intros a b Ha Hb H. rewrite Forall_forall in V.
  apply toordinal_le_date_le; [apply V | apply V | exact H];
    eapply Permutation_in; eassumption.
Qed.

Lemma chart_rows_chronological_witness :
  Permutation (chart_rows sample_view) sample_view /\
  StronglySorted (fun a b => date_le (date_publication a) (date_publication b))
                 (chart_rows sample_view).
Proof. apply chart_rows_chronological. repeat constructor. Defined.

Lemma combine_self_map (A B : Type) (g : A -> B) (l : list A) :
  combine l (map g l) = map (fun x => (x, g x)) l.
Proof. induction l as [|a t IH]; simpl; [reflexivity | now rewrite IH]. Qed.

(** The trend trace has one point per row of the view, in date order,
    and it is straight: between any two of its points the ordinate
    changes by the slope times the number of days between their dates. *)
Theorem trend_trace_straight (lstsq : Solver) (view : list Listing) (m : LinearModel) :
  tendance lstsq view = Fitted m ->
  exists tr, trend_trace lstsq view = Some tr /\
    length tr = length view /\
    Permutation (map fst tr) (map (@date_publication _ _) view) /\
    StronglySorted (fun a b => toordinal a <= toordinal b) (map fst tr) /\
    (forall p q, In p tr -> In q tr ->
       snd q - snd p == slope m * inject_Z (toordinal (fst q) - toordinal (fst p)))%Q.
Proof.
  intros H. unfold trend_trace. rewrite H.
  assert (Hv : view <> []) by (eapply tendance_fitted_nonempty; eassumption).
  destruct (date_num_spec Hv) as [l0 [_ [_ Hd]]].
  rewrite Hd, combine_self_map.
  set (t0 := toordinal (date_publication l0)).
  set (rows := map (fun x : Listing => (x, toordinal (date_publication x) - t0)) view).
  set (key := fun r : Listing * Z => toordinal (date_publication (fst r))).
  destruct (sort_values_asc_spec key rows) as [P S].
  set (h := fun r : Listing * Z =>
              (date_publication (fst r), predict m (inject_Z (snd r)))).
  exists (map h (sort_values_asc key rows)). split; [reflexivity|].
  assert (Hf : map fst (map h (sort_values_asc key rows)) =
               map (fun r => date_publication (fst r)) (sort_values_asc key rows))
    by (rewrite map_map; reflexivity).
  split; [|split; [|split]].
  - rewrite length_map, (Permutation_length P). unfold rows. apply length_map.
  - rewrite Hf.
    rewrite (Permutation_map (fun r : Listing * Z => date_publication (fst r)) P).
    unfold rows. rewrite map_map. reflexivity.
  - rewrite Hf. apply StronglySorted_map. exact S.
  - assert (Hin : forall p, In p (map h (sort_values_asc key rows)) ->
        exists l : Listing, p = (date_publication l,
                       predict m (inject_Z (toordinal (date_publication l) - t0)))).
    { intros p Hp. apply in_map_iff in Hp. destruct Hp as [r [<- Hr]].
      apply (Permutation_in _ P) in Hr. unfold rows in Hr.
      apply in_map_iff in Hr. destruct Hr as [l [<- _]]. exists l. reflexivity. }
    intros p q Hp Hq.
    destruct (Hin p Hp) as [lp ->]. destruct (Hin q Hq) as [lq ->].
    cbn [fst snd]. unfold predict, Z.sub.
    rewrite !inject_Z_plus, !inject_Z_opp. ring.
Qed.

Lemma trend_trace_straight_witness :
  exists tr, trend_trace exact_line two_points = Some tr /\ length tr = 2%nat.
Proof.
  destruct (@trend_trace_straight exact_line two_points
              (exact_line (trend_points two_points)))
    as [tr [Ht [Hl _]]].
  - reflexivity.
  - exists tr. split; [exact Ht | exact Hl].
Defined.

(* ================================================================= *)
(** ** Detailed table: what the sort on the text does give *)

(** The table holds the rows of the view, each once, with the date as
    text; its rows are in decreasing order of that text; and the text of
    each row parses back to the date of its listing. *)
Theorem df_display_rows (view : list Listing) :
  Forall (fun l => valid_date (date_publication l) = true) view ->
  Permutation (df_display view) (map display_row view) /\
  length (df_display view) = length view /\
  Sorted (text_geb (@date_publication _ _)) (df_display view) /\
  Forall (fun r => exists l, In l view /\ r = display_row l /\
                     strptime_dmY (date_publication r) = Some (date_publication l))
         (df_display view).
Proof.
  intros V. unfold df_display. fold display_row.
  destruct (sort_values_desc_spec (@date_publication string Z) (map display_row view))
    as [P S].
  split; [exact P|]. split; [|split; [exact S|]].
  - transitivity (length (map display_row view));
      [exact (Permutation_length P) | apply length_map].
  - apply Forall_forall. intros r Hr.
    apply (Permutation_in _ P) in Hr. apply in_map_iff in Hr.
    destruct Hr as [l [<- Hl]]. exists l. split; [exact Hl|]. split; [reflexivity|].
    unfold display_row. cbn [date_publication set_date].
    apply strftime_parses. rewrite Forall_forall in V. now apply V.
Qed.

Lemma df_display_rows_witness :
  Permutation (df_display sample_view) (map display_row sample_view) /\
  length (df_display sample_view) = length sample_view /\
  Sorted (text_geb (@date_publication _ _)) (df_display sample_view) /\
  Forall (fun r => exists l, In l sample_view /\ r = display_row l /\
                     strptime_dmY (date_publication r) = Some (date_publication l))
         (df_display sample_view).
Proof. apply df_display_rows. repeat constructor. Defined.

Lemma digit_char_compare (i j : Z) :
  Ascii.compare (digit_char i) (digit_char j) = (i mod 10 ?= j mod 10).
Proof.
  unfold digit_char.
  generalize (Z.mod_pos_bound i 10 eq_refl). generalize (i mod 10).
  generalize (Z.mod_pos_bound j 10 eq_refl). generalize (j mod 10).
  intros b Hb a Ha.
  assert (Ca : a = 0 \/ a = 1 \/ a = 2 \/ a = 3 \/ a = 4 \/
               a = 5 \/ a = 6 \/ a = 7 \/ a = 8 \/ a = 9) by lia.
  assert (Cb : b = 0 \/ b = 1 \/ b = 2 \/ b = 3 \/ b = 4 \/
               b = 5 \/ b = 6 \/ b = 7 \/ b = 8 \/ b = 9) by lia.
  destruct Ca as [->|[->|[->|[->|[->|[->|[->|[->|[->| ->]]]]]]]]];
  destruct Cb as [->|[->|[->|[->|[->|[->|[->|[->|[->| ->]]]]]]]]];
    reflexivity.
Qed.

(** Within one month the order of the texts is the order of the days. *)
Lemma strftime_leb_day (a b : date) :
  1 <= day a <= 31 -> 1 <= day b <= 31 ->
  year a = year b -> month a = month b ->
  String.leb (strftime_dmY a) (strftime_dmY b) = true -> day a <= day b.
Proof.
  intros Da Db Hy Hm. unfold strftime_dmY, String.leb. rewrite Hy, Hm.
  cbn [String.compare]. rewrite !digit_char_compare.
  destruct (Z.compare_spec ((day a / 10) mod 10) ((day b / 10) mod 10)) as [E1|L1|G1].
  - destruct (Z.compare_spec (day a mod 10) (day b mod 10)) as [E2|L2|G2].
    + intros _. revert E1 E2. Z.div_mod_to_equations. lia.
    + intros _. revert E1 L2. Z.div_mod_to_equations. lia.
    + discriminate.
  - intros _. revert L1. Z.div_mod_to_equations. lia.
  - discriminate.
Qed.

Lemma Sorted_weaken (A : Type) (R R' : A -> A -> Prop) (l : list A) :
  (forall a b, In a l -> In b l -> R a b -> R' a b) ->
  Sorted R l -> Sorted R' l.
Proof.
  intros H S. induction S as [|h t Hs IH Hh]; constructor.
  - apply IH. intros a b Ha Hb. apply H; now right.
  - destruct Hh as [|b t' Hb]; constructor.
    apply H; [now left | right; now left | exact Hb].
Qed.

Lemma StronglySorted_nth_error (A : Type) (R : A -> A -> Prop) (l : list A) :
  StronglySorted R l ->
  forall i j a b, (i < j)%nat ->
    nth_error l i = Some a -> nth_error l j = Some b -> R a b.
Proof.
  induction 1 as [|h t Hs IH Hh]; intros i j a b Hij Ha Hb.
  - destruct i; discriminate.
  - destruct j as [|j]; [lia|]. cbn [nth_error] in Hb.
    destruct i as [|i]; cbn [nth_error] in Ha.
    + injection Ha as <-. rewrite Forall_forall in Hh. apply Hh.
      eapply nth_error_In. exact Hb.
    + eapply IH; [|exact Ha|exact Hb]. lia.
Qed.

Lemma same_month_ordinal (a b : date) :
  year a = year b -> month a = month b -> day a <= day b ->
  toordinal a <= toordinal b.
Proof. intros Hy Hm Hd. unfold toordinal. rewrite Hy, Hm. lia. Qed.

(** When all the listings of the view were published in the same month
    of the same year, the table is in reverse-chronological order: the
    sort on the text then agrees with the dates. *)
Theorem df_display_same_month (view : list Listing) :
  Forall (fun l => valid_date (date_publication l) = true) view ->
  (forall l1 l2, In l1 view -> In l2 view ->
     year (date_publication l1) = year (date_publication l2) /\
     month (date_publication l1) = month (date_publication l2)) ->
  reverse_chronological (df_display view).
Proof.
  intros V Hsame.
  destruct (sort_values_desc_spec (@date_publication string Z) (map display_row view))
    as [P S].
  fold (df_display view) in P, S.
  assert (Hrow : forall r, In r (df_display view) ->
            exists l, In l view /\ r = display_row l /\
              strptime_dmY (date_publication r) = Some (date_publication l)).
  { intros r Hr. apply (Permutation_in _ P) in Hr. apply in_map_iff in Hr.
    destruct Hr as [l [<- Hl]]. exists l. split; [exact Hl|]. split; [reflexivity|].
    unfold display_row. cbn [date_publication set_date].
    apply strftime_parses. rewrite Forall_forall in V. now apply V. }
  assert (S' : StronglySorted (fun a b => shown_ordinal b <= shown_ordinal a)
                              (df_display view)).
  { apply Sorted_StronglySorted; [intros x y z; lia|].
    eapply Sorted_weaken; [|exact S].
    intros a b Ha Hb Hab.
    destruct (Hrow a Ha) as [la [Hla [Ea Pa]]].
    destruct (Hrow b Hb) as [lb [Hlb [Eb Pb]]].
    unfold shown_ordinal. rewrite Pa, Pb.
    destruct (Hsame lb la Hlb Hla) as [Hy Hm].
    apply same_month_ordinal; [exact Hy | exact Hm|].
    rewrite Forall_forall in V.
    pose proof (V la Hla) as Va. pose proof (V lb Hlb) as Vb.
    apply valid_date_spec in Va. apply valid_date_spec in Vb.
    destruct Va as [_ [Ma Da]]. destruct Vb as [_ [Mb Db]].
    pose proof (@days_in_month_le (year (date_publication la))
                  (month (date_publication la)) Ma).
    pose proof (@days_in_month_le (year (date_publication lb))
                  (month (date_publication lb)) Mb).
    apply strftime_leb_day; [lia | lia | exact Hy | exact Hm|].
    unfold text_geb in Hab. rewrite Ea, Eb in Hab. exact Hab. }
  intros i j ri rj di dj Hij Hi Hj Pi Pj.
  pose proof (StronglySorted_nth_error S' Hij Hi Hj) as Ho.
  unfold shown_ordinal in Ho. rewrite Pi, Pj in Ho.
  apply toordinal_le_date_le; [| |exact Ho]; eapply strptime_valid; eassumption.
Qed.

Lemma df_display_same_month_witness :
  reverse_chronological (df_display two_points).
Proof.
  apply df_display_same_month; [repeat constructor|].
  intros l1 l2 [<-|[<-|[]]] [<-|[<-|[]]]; split; reflexivity.
Defined.
